(** * Task-management REST backend: authorization gate and task handlers

    A shallow embedding of [src/server.js] (the [authenticateToken]
    middleware) and of [src/routes/tasks.js] (the GET, POST, PATCH and
    DELETE handlers of the [/tasks] router), followed by the properties
    of the specification stated over that embedding.

    The HTTP framework, the token library, the database connector and the
    relational store are collaborators of the program, not part of it.  They
    appear here as:
    - [jwt_verify] and [JWT_SECRET]: section variables of the gate;
    - the store: an interpreter for exactly the statement texts the
      handlers can send, over a table of task rows ([Module Store]); its
      answers have the shape the connector of the program gives them (the
      pool is made by [mariadb.createPool], [server.js] line 49): a SELECT
      resolves to the array of its rows, a write to a packet that carries
      [insertId] and [affectedRows];
    - the connection pool, the fault plan of the store and the clock:
      fields of [world]. *)

From Stdlib Require Import ZArith List String Ascii Bool Lia.
Import ListNotations.
Open Scope string_scope.
Open Scope Z_scope.

(** ** JavaScript values and the string primitives the program calls *)

(** The values a JSON body field or a bound statement parameter can take.
    Numbers are the integers.  [JNaN] is a number that has no literal, as the
    result of a failed [parseInt]; it is the value of bound parameters only,
    JSON has none.  Arrays and nested objects are outside the model.  A text
    is the sequence of the bytes of its UTF-8 encoding. *)
Inductive jsval : Type :=
| JUndefined
| JNull
| JBool (b : bool)
| JNaN
| JNum (n : Z)
| JStr (s : string).

Definition jsval_eqb (a b : jsval) : bool :=
  match a, b with
  | JUndefined, JUndefined => true
  | JNull, JNull => true
  | JBool x, JBool y => Bool.eqb x y
  | JNum x, JNum y => x =? y
  | JStr x, JStr y => String.eqb x y
  | _, _ => false          (* NaN is equal to nothing, itself included *)
  end.

(** ToBoolean. *)
Definition truthy (v : jsval) : bool :=
  match v with
  | JUndefined | JNull | JNaN => false
  | JBool b => b
  | JNum n => negb (n =? 0)
  | JStr s => negb (String.eqb s "")
  end.

(** [a || b]. *)
Definition js_or (a b : jsval) : jsval := if truthy a then a else b.

(** A query-string or header value: absent ([undefined]) or a string. *)
Definition of_param (p : option string) : jsval :=
  match p with
  | Some s => JStr s
  | None => JUndefined
  end.

(** [list.includes(v)], strict equality against string literals. *)
Definition includes (l : list string) (v : jsval) : bool :=
  existsb (fun x => jsval_eqb (JStr x) v) l.

(** [s.split(sep)] for a one-character separator: the pieces between the
    occurrences of [sep]; never the empty list. *)
Fixpoint split (sep : ascii) (s : string) : list string :=
  match s with
  | EmptyString => [EmptyString]
  | String c s' =>
      if Ascii.eqb c sep then EmptyString :: split sep s'
      else match split sep s' with
           | p :: ps => String c p :: ps
           | [] => [String c EmptyString]
           end
  end.

(** [arr[i]] read as a value: [undefined] past the end. *)
Definition index (l : list string) (i : nat) : jsval :=
  of_param (nth_error l i).

(** [arr.join(sep)]. *)
Definition join (sep : string) (l : list string) : string :=
  String.concat sep l.

(** *** Numbers

    The numbers the program computes with are the results of [parseInt] and
    of [(page - 1) * limit]: integers that a double holds, the two
    infinities and NaN.  The sign of zero is not kept: the program prints and
    binds numbers, and both zeros print as "0". *)

Inductive number : Type :=
| Num (n : Z)
| Inf (negative : bool)
| NaN.

(** The double nearest to an integer, ties to the even significand: exact
    below 2^53, a multiple of a power of two beyond, an infinity from 2^1024
    on. *)
Definition round_double (n : Z) : number :=
  let a := Z.abs n in
  if a <? 2 ^ 53 then Num n
  else
    let e := Z.log2 a - 52 in
    let q := Z.shiftr a e in
    let r := a - Z.shiftl q e in
    let half := Z.shiftl 1 (e - 1) in
    let q' := if (half <? r) || ((r =? half) && Z.odd q) then q + 1 else q in
    let m := Z.shiftl q' e in
    if 2 ^ 1024 <=? m then Inf (n <? 0) else Num (Z.sgn n * m).

(** ToBoolean of a number: NaN and 0 are the falsy ones. *)
Definition number_truthy (v : number) : bool :=
  match v with
  | Num n => negb (n =? 0)
  | Inf _ => true
  | NaN => false
  end.

(** [a - b] and [a * b]. *)
Definition number_sub (a b : number) : number :=
  match a, b with
  | Num x, Num y => round_double (x - y)
  | Inf s, Num _ => Inf s
  | Num _, Inf s => Inf (negb s)
  | Inf s, Inf t => if Bool.eqb s t then NaN else Inf s
  | _, _ => NaN
  end.

Definition number_mul (a b : number) : number :=
  match a, b with
  | Num x, Num y => round_double (x * y)
  | Inf s, Num y => if y =? 0 then NaN else Inf (xorb s (y <? 0))
  | Num x, Inf s => if x =? 0 then NaN else Inf (xorb s (x <? 0))
  | Inf s, Inf t => Inf (xorb s t)
  | _, _ => NaN
  end.

(** *** parseInt *)

(** The white space [parseInt] skips before the sign (StrWhiteSpaceChar).
    Six characters take one byte: space, tab, line feed, vertical tab, form
    feed and carriage return. *)
Definition is_js_space (c : ascii) : bool :=
  let n := nat_of_ascii c in
  (Nat.eqb n 32 || Nat.eqb n 9 || Nat.eqb n 10 || Nat.eqb n 11
   || Nat.eqb n 12 || Nat.eqb n 13)%bool.

(** One takes two bytes: U+00A0, the no-break space. *)
Definition is_js_space2 (c1 c2 : ascii) : bool :=
  (Nat.eqb (nat_of_ascii c1) 194 && Nat.eqb (nat_of_ascii c2) 160)%bool.

(** The others take three: U+1680, U+2000 to U+200A, U+2028, U+2029, U+202F,
    U+205F, U+3000 and U+FEFF. *)
Definition is_js_space3 (c1 c2 c3 : ascii) : bool :=
  let a := nat_of_ascii c1 in
  let b := nat_of_ascii c2 in
  let c := nat_of_ascii c3 in
  (Nat.eqb a 225 && Nat.eqb b 154 && Nat.eqb c 128
   || Nat.eqb a 226 && Nat.eqb b 128
      && (Nat.leb 128 c && Nat.leb c 138 || Nat.eqb c 168 || Nat.eqb c 169
          || Nat.eqb c 175)
   || Nat.eqb a 226 && Nat.eqb b 129 && Nat.eqb c 159
   || Nat.eqb a 227 && Nat.eqb b 128 && Nat.eqb c 128
   || Nat.eqb a 239 && Nat.eqb b 187 && Nat.eqb c 191)%bool.

Fixpoint trim_start (s : string) : string :=
  match s with
  | String c1 s1 =>
      if is_js_space c1 then trim_start s1
      else
        match s1 with
        | String c2 s2 =>
            if is_js_space2 c1 c2 then trim_start s2
            else
              match s2 with
              | String c3 s3 =>
                  if is_js_space3 c1 c2 c3 then trim_start s3 else s
              | EmptyString => s
              end
        | EmptyString => s
        end
  | EmptyString => EmptyString
  end.

Definition digit_value (c : ascii) : option Z :=
  let n := Z.of_nat (nat_of_ascii c) in
  if (48 <=? n) && (n <=? 57) then Some (n - 48)
  else if (97 <=? n) && (n <=? 122) then Some (n - 87)
  else if (65 <=? n) && (n <=? 90) then Some (n - 55)
  else None.

(** The longest prefix of digits of the radix, as a number; [acc] is [None]
    until a first digit has been read. *)
Fixpoint digits (radix : Z) (s : string) (acc : option Z) : option Z :=
  match s with
  | String c s' =>
      match digit_value c with
      | Some d =>
          if d <? radix
          then digits radix s'
                 (Some (match acc with Some a => a * radix + d | None => d end))
          else acc
      | None => acc
      end
  | EmptyString => acc
  end.

(** [parseInt(x)] with no radix argument.  An absent value is converted to
    the text "undefined", which has no digit.  The digits are read exactly,
    and the integer they write is rounded to the nearest double. *)
Definition parseInt (x : option string) : number :=
  match x with
  | None => NaN
  | Some s =>
      let s := trim_start s in
      let '(sign, s) :=
        match s with
        | String "-"%char r => (-1, r)
        | String "+"%char r => (1, r)
        | _ => (1, s)
        end in
      let '(radix, s) :=
        match s with
        | String "0"%char (String "x"%char r) => (16, r)
        | String "0"%char (String "X"%char r) => (16, r)
        | _ => (10, s)
        end in
      match digits radix s None with
      | Some v => round_double (sign * v)
      | None => NaN
      end
  end.

(** [parseInt(x) || d]. *)
Definition parseInt_or (x : option string) (d : Z) : number :=
  if number_truthy (parseInt x) then parseInt x else Num d.

(** *** Numbers as bound parameters

    The connector writes a number into the statement as JavaScript prints
    it.  Below 2^53 that is the integer itself.  Beyond, a number [a] is
    [m * 2^e] with [2^52 <= m < 2^53], and what is printed is the decimal
    with the fewest significant digits among those that round to [a], the
    closest to [a] when there are several: 2^60 is printed
    1152921504606847000. *)

(** The multiple of [10^j] to print, for the largest [j] for which one lies
    in the interval of the reals that round to [a]; [lo] and [hi] are four
    times the bounds of that interval, which belong to it when [closed]. *)
Fixpoint shortest (j : nat) (a lo hi : Z) (closed : bool) : Z :=
  let p := 10 ^ Z.of_nat j in
  let below := (a / p) * p in
  let above := below + p in
  let inside c :=
    if closed then (lo <=? 4 * c) && (4 * c <=? hi)
    else (lo <? 4 * c) && (4 * c <? hi) in
  let found :=
    match inside below, inside above with
    | true, true =>
        if a - below <? above - a then Some below
        else if above - a <? a - below then Some above
        else if Z.even (a / p) then Some below else Some above
    | true, false => Some below
    | false, true => Some above
    | false, false => None
    end in
  match found with
  | Some c => c
  | None =>
      match j with
      | O => a
      | S j' => shortest j' a lo hi closed
      end
  end.

(** The integer whose digits are printed for the number [x]. *)
Definition to_decimal (x : Z) : Z :=
  let a := Z.abs x in
  if a <? 2 ^ 53 then x
  else
    let e := Z.log2 a - 52 in
    let m := Z.shiftr a e in
    let lo := 4 * a - (if m =? 2 ^ 52 then 2 ^ e else 2 ^ (e + 1)) in
    let hi := 4 * a + 2 ^ (e + 1) in
    Z.sgn x * shortest 330 a lo hi (Z.even m).

(** A number as a bound parameter.  NaN and the infinities are printed as
    words, not as numbers: both are bound as [JNaN]. *)
Definition num_param (v : number) : jsval :=
  match v with
  | Num z => JNum (to_decimal z)
  | Inf _ | NaN => JNaN
  end.

(** ** Data model *)

(** A row of the [tasks] table.  The store keeps the values it was handed
    as bound parameters; [created_at] and [updated_at] are the
    "YYYY-MM-DD HH:MM:SS" texts the handlers bind. *)
Record task : Type := mkTask {
  id : Z;
  title : jsval;
  description : jsval;
  status : jsval;
  user_id : Z;
  created_at : string;
  updated_at : string
}.

(** A task as it is serialised in a response:
    [{id, title, description, status, user_id, createdAt, updatedAt}]. *)
Record task_view : Type := mkView {
  v_id : Z;
  v_title : jsval;
  v_description : jsval;
  v_status : jsval;
  v_user_id : Z;
  createdAt : string;
  updatedAt : string
}.

(** The verified identity, [req.user]; [uid] is [req.user.id]. *)
Record user : Type := mkUser { uid : Z }.

(** The JSON bodies the program sends. *)
Inductive body : Type :=
| ErrorBody (code : Z) (error message : string)
| ListBody (page limit : number) (total : Z) (tasks : list task_view)
| CreatedBody (success : bool) (message : string) (taskId : option Z)
              (title description status : jsval)
| TaskBody (t : option task_view)
| MessageBody (message : string).

Record response : Type := mkResponse {
  http_status : Z;
  json : body
}.

(** [res.status(c).json(b)] and [res.json(b)]. *)
Definition res_status_json (c : Z) (b : body) : response := mkResponse c b.
Definition res_json (b : body) : response := mkResponse 200 b.

(** ** The store

    The relational store is outside the program.  It is modelled by the usual
    meaning of the statements the handlers send, over the rows of the one
    table [tasks]: [WHERE] keeps the rows whose column equals the bound
    value, [ORDER BY] sorts, [LIMIT] and [OFFSET] cut a window, INSERT
    appends a row under the next identifier, UPDATE and DELETE act on the
    rows of the bound identifier.  Errors are: a text that is none of the
    handlers' statements; a parameter list of the wrong shape; a [LIMIT] or
    [OFFSET] that is not a whole number from 0 to 2^64 - 1; an identifier
    bound as [JNaN], which reaches the store as a bare word in place of a
    number.

    The order of the rows of a SELECT is the store's choice where the
    statement leaves it open (no [ORDER BY], or rows equal on the sort
    column), and the order of texts depends on the collation of the column.
    The model takes the order of the table and compares texts byte by byte;
    no property below depends on the order of the rows. *)

Module Store.

(** The columns [ORDER BY] can name, and the two directions. *)
Inductive column : Type := Title | Status | Created_at | Updated_at.
Inductive direction : Type := ASC | DESC.

(** The statements whose text the handlers can produce. *)
Inductive statement : Type :=
| SelectList (with_status : bool) (order : option (column * direction))
| SelectCount (with_status : bool)
| SelectOwned
| SelectView
| InsertTask
| UpdateTask (set_title set_description set_status : bool)
| DeleteTask.

Definition column_name (c : column) : string :=
  match c with
  | Title => "title"
  | Status => "status"
  | Created_at => "created_at"
  | Updated_at => "updated_at"
  end.

Definition direction_name (d : direction) : string :=
  match d with ASC => "ASC" | DESC => "DESC" end.

Definition opt (b : bool) (s : string) : list string :=
  if b then [s] else [].

Definition render (st : statement) : string :=
  match st with
  | SelectList ws order =>
      "SELECT * FROM tasks WHERE user_id = ?"
      ++ (if ws then " AND status = ?" else "")
      ++ match order with
         | Some (c, d) =>
             " ORDER BY " ++ column_name c ++ " " ++ direction_name d
         | None => ""
         end
      ++ " LIMIT ? OFFSET ?"
  | SelectCount ws =>
      "SELECT COUNT(*) as total FROM tasks WHERE user_id = ?"
      ++ (if ws then " AND status = ?" else "")
  | SelectOwned => "SELECT * FROM tasks WHERE id = ? AND user_id = ?"
  | SelectView =>
      "SELECT id, title, description, status, user_id, created_at as createdAt, updated_at as updatedAt FROM tasks WHERE id = ?"
  | InsertTask =>
      "INSERT INTO tasks (title, description, status, user_id, created_at, updated_at) VALUES (?, ?, ?, ?, ?, ?)"
  | UpdateTask t d s =>
      "UPDATE tasks SET "
      ++ join ", " ("updated_at = ?" :: opt t "title = ?"
                      ++ opt d "description = ?" ++ opt s "status = ?")
      ++ " WHERE id = ?"
  | DeleteTask => "DELETE FROM tasks WHERE id = ?"
  end.

Definition columns : list column := [Title; Status; Created_at; Updated_at].
Definition bools : list bool := [false; true].

Definition orders : list (option (column * direction)) :=
  None :: flat_map (fun c => [Some (c, ASC); Some (c, DESC)]) columns.

Definition statements : list statement :=
  (flat_map (fun ws => map (SelectList ws) orders) bools
   ++ map SelectCount bools
   ++ [SelectOwned; SelectView; InsertTask; DeleteTask]
   ++ flat_map (fun t => flat_map (fun d => map (UpdateTask t d) bools) bools)
        bools)%list.

(** Any other text is a statement the store rejects. *)
Definition parse (sql : string) : option statement :=
  find (fun st => String.eqb (render st) sql) statements.

(** *** Ordering of column values *)

Definition rank (v : jsval) : nat :=
  match v with
  | JUndefined | JNull => 0
  | JBool _ => 1
  | JNaN | JNum _ => 2
  | JStr _ => 3
  end%nat.

Definition jsval_compare (a b : jsval) : comparison :=
  match a, b with
  | JStr x, JStr y => String.compare x y
  | JNum x, JNum y => Z.compare x y
  | JBool x, JBool y => Z.compare (Z.b2z x) (Z.b2z y)
  | _, _ => Nat.compare (rank a) (rank b)
  end.

Definition jsval_leb (a b : jsval) : bool :=
  match jsval_compare a b with Gt => false | _ => true end.

Definition column_value (c : column) (r : task) : jsval :=
  match c with
  | Title => title r
  | Status => status r
  | Created_at => JStr (created_at r)
  | Updated_at => JStr (updated_at r)
  end.

(** [r1] may come before [r2] under [ORDER BY c d]. *)
Definition before (c : column) (d : direction) (r1 r2 : task) : bool :=
  match d with
  | ASC => jsval_leb (column_value c r1) (column_value c r2)
  | DESC => jsval_leb (column_value c r2) (column_value c r1)
  end.

Section Sorting.
Context {A : Type} (le : A -> A -> bool).

Fixpoint insert_by (x : A) (l : list A) : list A :=
  match l with
  | [] => [x]
  | y :: l' => if le x y then x :: l else y :: insert_by x l'
  end.

Fixpoint sort_by (l : list A) : list A :=
  match l with
  | [] => []
  | x :: l' => insert_by x (sort_by l')
  end.
End Sorting.

(** *** Execution *)

(** What [conn.query] resolves to.  For a SELECT it is the array of the rows
    itself: [result[0]] is the first row, and [undefined] when there is none.
    The rows are tasks ([Rows]), tasks under the column names of a response
    ([Views]) or totals ([Counts]).  For a write it is a packet ([Ok]):
    [result.insertId] is the identifier an INSERT assigned, and [result[0]]
    is [undefined]. *)
Inductive qresult : Type :=
| Rows (rs : list task)
| Views (rs : list task_view)
| Counts (totals : list Z)
| Ok (insertId : Z) (affectedRows : Z).

Definition view (r : task) : task_view :=
  mkView (id r) (title r) (description r) (status r) (user_id r)
    (created_at r) (updated_at r).

Definition db : Type := (list task * Z)%type.

Definition owned_by (p : jsval) (r : task) : bool :=
  jsval_eqb (JNum (user_id r)) p.
Definition has_id (p : jsval) (r : task) : bool :=
  jsval_eqb (JNum (id r)) p.
Definition has_status (p : jsval) (r : task) : bool :=
  jsval_eqb (status r) p.

Definition ordered (order : option (column * direction)) (rs : list task)
  : list task :=
  match order with
  | Some (c, d) => sort_by (before c d) rs
  | None => rs
  end.

(** A bound of [LIMIT] or [OFFSET] the store accepts. *)
Definition bound_ok (n : Z) : bool := (0 <=? n) && (n <? 2 ^ 64).

(** [LIMIT l OFFSET o]. *)
Definition window (l o : Z) (rs : list task) : option (list task) :=
  if bound_ok l && bound_ok o
  then Some (firstn (Z.to_nat l) (skipn (Z.to_nat o) rs))
  else None.

(** An identifier that reaches the store as a bare word. *)
Definition bare_word (p : jsval) : bool :=
  match p with JNaN => true | _ => false end.

(** Take the parameter of an optional [SET] clause. *)
Definition take (b : bool) (ps : list jsval)
  : option (option jsval * list jsval) :=
  if b then
    match ps with
    | p :: ps' => Some (Some p, ps')
    | [] => None
    end
  else Some (None, ps).

Definition assign (v : option jsval) (old : jsval) : jsval :=
  match v with Some x => x | None => old end.

Definition run (st : statement) (ps : list jsval) (d : db)
  : option (qresult * db) :=
  let '(rows, next) := d in
  match st, ps with
  | SelectList false order, [u; JNum l; JNum o] =>
      option_map (fun rs => (Rows rs, d))
        (window l o (ordered order (filter (owned_by u) rows)))
  | SelectList true order, [u; s; JNum l; JNum o] =>
      option_map (fun rs => (Rows rs, d))
        (window l o
           (ordered order
              (filter (fun r => owned_by u r && has_status s r) rows)))
  | SelectCount false, [u] =>
      Some (Counts [Z.of_nat (List.length (filter (owned_by u) rows))], d)
  | SelectCount true, [u; s] =>
      Some (Counts
              [Z.of_nat
                 (List.length
                    (filter (fun r => owned_by u r && has_status s r) rows))],
            d)
  | SelectOwned, [i; u] =>
      if bare_word i then None
      else Some (Rows (filter (fun r => has_id i r && owned_by u r) rows), d)
  | SelectView, [i] =>
      if bare_word i then None
      else Some (Views (map view (filter (has_id i) rows)), d)
  | InsertTask, [t; de; s; JNum u; JStr c; JStr up] =>
      Some (Ok next 1, ((rows ++ [mkTask next t de s u c up])%list, next + 1))
  | UpdateTask bt bd bs, JStr up :: rest =>
      match take bt rest with
      | Some (t, rest1) =>
          match take bd rest1 with
          | Some (de, rest2) =>
              match take bs rest2 with
              | Some (s, [i]) =>
                  if bare_word i then None
                  else
                    Some (Ok 0
                            (Z.of_nat (List.length (filter (has_id i) rows))),
                          (map (fun r =>
                                  if has_id i r
                                  then mkTask (id r) (assign t (title r))
                                         (assign de (description r))
                                         (assign s (status r)) (user_id r)
                                         (created_at r) up
                                  else r) rows,
                           next))
              | _ => None
              end
          | None => None
          end
      | None => None
      end
  | DeleteTask, [i] =>
      if bare_word i then None
      else
        Some (Ok 0 (Z.of_nat (List.length (filter (has_id i) rows))),
              (filter (fun r => negb (has_id i r)) rows, next))
  | _, _ => None
  end.

(** [None]: the store raises an error. *)
Definition exec (sql : string) (ps : list jsval) (d : db)
  : option (qresult * db) :=
  match parse sql with
  | Some st => run st ps d
  | None => None
  end.

End Store.

(** ** The world a request runs in *)

(** [table] and [next_id] are the store's [tasks] table and its
    auto-increment counter; [held] counts the pool connections acquired and
    not released; [faults] is the fault plan of the store, one flag per
    operation still to come ([true]: that operation raises); [log] records the
    statements sent, with their bound parameters; [clock] is what
    [new Date().toISOString()] reads. *)
Record world : Type := mkWorld {
  table : list task;
  next_id : Z;
  held : nat;
  faults : list bool;
  log : list (string * list jsval);
  clock : string
}.

Definition set_db (d : Store.db) (w : world) : world :=
  mkWorld (fst d) (snd d) (held w) (faults w) (log w) (clock w).
Definition set_held (h : nat) (w : world) : world :=
  mkWorld (table w) (next_id w) h (faults w) (log w) (clock w).
Definition set_faults (f : list bool) (w : world) : world :=
  mkWorld (table w) (next_id w) (held w) f (log w) (clock w).
Definition set_log (l : list (string * list jsval)) (w : world) : world :=
  mkWorld (table w) (next_id w) (held w) (faults w) l (clock w).

(** *** Computations that may throw *)

Inductive outcome (A : Type) : Type :=
| Returned (a : A)
| Thrown.
Arguments Returned {A} a.
Arguments Thrown {A}.

Definition M (A : Type) : Type := world -> outcome A * world.

Definition ret {A : Type} (a : A) : M A := fun w => (Returned a, w).
Definition throw {A : Type} : M A := fun w => (Thrown, w).
Definition bind {A B : Type} (m : M A) (k : A -> M B) : M B :=
  fun w =>
    match m w with
    | (Returned a, w') => k a w'
    | (Thrown, w') => (Thrown, w')
    end.

Notation "x <- m ;; k" := (bind m (fun x => k))
  (at level 61, m at next level, right associativity).
Notation "m ;; k" := (bind m (fun _ => k))
  (at level 61, right associativity).

(** [try { m } catch (error) { return on_error }]. *)
Definition try_catch (m : M response) (on_error : response)
  : world -> response * world :=
  fun w =>
    match m w with
    | (Returned r, w') => (r, w')
    | (Thrown, w') => (on_error, w')
    end.

(** One operation of the store: consult the fault plan. *)
Definition store_op : M unit :=
  fun w =>
    match faults w with
    | true :: fs => (Thrown, set_faults fs w)
    | false :: fs => (Returned tt, set_faults fs w)
    | [] => (Returned tt, w)
    end.

(** [await pool.getConnection()]. *)
Definition getConnection : M unit :=
  store_op ;; fun w => (Returned tt, set_held (S (held w)) w).

(** [conn.release()]. *)
Definition release : M unit :=
  fun w => (Returned tt, set_held (pred (held w)) w).

(** [await conn.query(sql, params)]. *)
Definition conn_query (sql : string) (params : list jsval) : M Store.qresult :=
  (fun w => (Returned tt, set_log (log w ++ [(sql, params)])%list w)) ;;
  store_op ;;
  fun w =>
    match Store.exec sql params (table w, next_id w) with
    | Some (r, d) => (Returned r, set_db d w)
    | None => (Thrown, w)
    end.

(** [s.replace(a, b)] for one-character texts: the first occurrence only. *)
Fixpoint replace (a b : ascii) (s : string) : string :=
  match s with
  | EmptyString => EmptyString
  | String c s' => if Ascii.eqb c a then String b s' else String c (replace a b s')
  end.

(** [new Date().toISOString().slice(0, 19).replace('T', ' ')]. *)
Definition now : M string :=
  fun w => (Returned (replace "T" " " (substring 0 19 (clock w))), w).

(** ** The authorization gate ([src/server.js], lines 133-155) *)

Inductive gate : Type :=
| Reject (r : response)
| Next (u : user).

Definition unauthorized : response :=
  res_status_json 401
    (ErrorBody 401 "Unauthorized" "Authentication token is required").

Definition forbidden : response :=
  res_status_json 403 (ErrorBody 403 "Forbidden" "Invalid or expired token").

(** [authHeader && authHeader.split(' ')[1]]; [None] is [undefined]. *)
Definition bearer_token (authHeader : option string) : option string :=
  match authHeader with
  | None => None
  | Some h => if truthy (JStr h) then nth_error (split " " h) 1 else Some h
  end.

Section AuthorizationGate.

(** [jwt.verify(token, secret, callback)]: [None] when the callback receives
    an error, [Some user] when it receives the decoded payload. *)
Variable jwt_verify : string -> string -> option user.
Variable JWT_SECRET : string.

Definition authenticateToken (authHeader : option string) : gate :=
  match bearer_token authHeader with
  | Some token =>
      if negb (truthy (JStr token)) then Reject unauthorized
      else
        match jwt_verify token JWT_SECRET with
        | None => Reject forbidden
        | Some u => Next u
        end
  | None => Reject unauthorized
  end.

(** A route: the gate, then the handler with [req.user] attached. *)
Definition route (handler : user -> world -> response * world)
  (authHeader : option string) : world -> response * world :=
  match authenticateToken authHeader with
  | Reject r => fun w => (r, w)
  | Next u => handler u
  end.

End AuthorizationGate.

(** ** The task handlers ([src/routes/tasks.js]) *)

(** [req.query] of GET /tasks; a key given once is a string. *)
Record query_string : Type := mkQuery {
  q_page : option string;
  q_limit : option string;
  q_status : option string;
  q_sort : option string
}.

(** [req.body] of POST and PATCH. *)
Record task_body : Type := mkBody {
  b_title : jsval;
  b_description : jsval;
  b_status : jsval
}.

Definition statuses : list string := ["pending"; "in_progress"; "completed"].
Definition sort_fields : list string :=
  ["title"; "status"; "created_at"; "updated_at"].

Definition internal_error (message : string) : response :=
  res_status_json 500 (ErrorBody 500 "Internal Server Error" message).

Definition bad_request (message : string) : response :=
  res_status_json 400 (ErrorBody 400 "Bad Request" message).

Definition not_found : response :=
  res_status_json 404
    (ErrorBody 404 "Not Found" "Task not found or you do not have permission").

(** [v !== undefined]. *)
Definition defined (v : jsval) : bool :=
  match v with JUndefined => false | _ => true end.

(** [v.length] raises a TypeError on [undefined] and [null] ... *)
Definition has_properties (v : jsval) : bool :=
  match v with JUndefined | JNull => false | _ => true end.

(** ... is the number of characters of a string, and [undefined] on a number
    or a boolean. *)
Definition length_of (v : jsval) : jsval :=
  match v with
  | JStr s => JNum (Z.of_nat (String.length s))
  | _ => JUndefined
  end.

(** [v < 1] for the values [length_of] returns. *)
Definition lt_1 (v : jsval) : bool :=
  match v with JNum n => n <? 1 | _ => false end.

(** *** GET /tasks ([tasks.js], lines 5-84) *)

(** [page], [limit] and [offset]. *)
Definition list_window (q : query_string) : number * number * number :=
  let page := parseInt_or (q_page q) 1 in
  let limit := parseInt_or (q_limit q) 10 in
  let offset := number_mul (number_sub page (Num 1)) limit in
  (page, limit, offset).

(** The row query: text and bound parameters. *)
Definition list_query (u : user) (q : query_string) : string * list jsval :=
  let '(_, limit, offset) := list_window q in
  let status := of_param (q_status q) in
  let query := "SELECT * FROM tasks WHERE user_id = ?" in
  let queryParams := [JNum (uid u)] in
  let '(query, queryParams) :=
    if truthy status && includes statuses status
    then (query ++ " AND status = ?", (queryParams ++ [status])%list)
    else (query, queryParams) in
  let query :=
    match q_sort q with
    | Some sort =>
        if truthy (JStr sort) then
          let parts := split ":" sort in
          let sortField := hd "" parts in
          let sortOrder := index parts 1 in
          if truthy (JStr sortField) && includes sort_fields (JStr sortField)
          then
            let direction :=
              if jsval_eqb sortOrder (JStr "desc") then "DESC" else "ASC" in
            query ++ " ORDER BY " ++ sortField ++ " " ++ direction
          else query
        else query ++ " ORDER BY created_at DESC"
    | None => query ++ " ORDER BY created_at DESC"
    end in
  (query ++ " LIMIT ? OFFSET ?",
   (queryParams ++ [num_param limit; num_param offset])%list).

(** The count query. *)
Definition count_query (u : user) (q : query_string) : string * list jsval :=
  let status := of_param (q_status q) in
  ("SELECT COUNT(*) as total FROM tasks WHERE user_id = ?"
   ++ (if truthy status then " AND status = ?" else ""),
   if truthy status then [JNum (uid u); status] else [JNum (uid u)]).

(** The unwrapping of the count result.  [countQueryResult[0]] is the first
    row, which is no array: the branch that reads [countQueryResult[0].total]
    applies when that row carries a total.  With no first row, and with a
    first row that is a task (no [total], and nothing at index 0), [total]
    stays 0. *)
Definition count_total (r : Store.qresult) : Z :=
  match r with
  | Store.Counts (n :: _) => n
  | _ => 0
  end.

(** [tasksResult[0]]: the first row, [None] for [undefined]. *)
Definition first_task (r : Store.qresult) : option task :=
  match r with
  | Store.Rows (t :: _) => Some t
  | _ => None
  end.

(** [tasks.map(f)] on [tasks = tasksResult[0]].  A row is an object with the
    columns of the table as its properties: it has no [map], and calling
    [tasks.map] raises a TypeError; so does reading [map] of [undefined]. *)
Definition map_tasks {A : Type} (f : task -> A) (tasks : option task)
  : M (list A) :=
  match tasks with
  | Some _ => throw
  | None => throw
  end.

Definition format_task (t : task) : task_view :=
  mkView (id t) (title t) (description t) (status t) (user_id t)
    (created_at t) (updated_at t).

Definition get_tasks (u : user) (q : query_string)
  : world -> response * world :=
  try_catch
    (let '(page, limit, _) := list_window q in
     getConnection ;;
     countQueryResult <- conn_query (fst (count_query u q))
                                    (snd (count_query u q)) ;;
     let total := count_total countQueryResult in
     tasksResult <- conn_query (fst (list_query u q)) (snd (list_query u q)) ;;
     let tasks := first_task tasksResult in
     release ;;
     formattedTasks <- map_tasks format_task tasks ;;
     ret (res_json (ListBody page limit total formattedTasks)))
    (internal_error "Failed to fetch tasks").

(** *** POST /tasks ([tasks.js], lines 87-138) *)

Definition post_tasks (u : user) (b : task_body)
  : world -> response * world :=
  let title := b_title b in
  let description := b_description b in
  let status := b_status b in
  if negb (truthy title) || lt_1 (length_of title) then
    fun w =>
      (bad_request "Title is required and must be at least 1 character long",
       w)
  else if truthy status && negb (includes statuses status) then
    fun w =>
      (bad_request "Status must be pending, in_progress, or completed", w)
  else
    try_catch
      (getConnection ;;
       t <- now ;;
       result <- conn_query
                   "INSERT INTO tasks (title, description, status, user_id, created_at, updated_at) VALUES (?, ?, ?, ?, ?, ?)"
                   [title; js_or description JNull;
                    js_or status (JStr "pending"); JNum (uid u);
                    JStr t; JStr t] ;;
       let insertId :=
         match result with
         | Store.Ok i _ => if truthy (JNum i) then Some i else None
         | _ => None
         end in
       release ;;
       ret (res_status_json 201
              (CreatedBody true "Task created successfully" insertId title
                 (js_or description JNull) (js_or status (JStr "pending")))))
      (internal_error "An unexpected error occurred").

(** *** PATCH /tasks/:taskId ([tasks.js], lines 141-229) *)

(** [!tasks || tasks.length === 0] on [tasks = taskResult[0]]: true when
    there is no first row.  A first row is an object, which is truthy and has
    no column [length]. *)
Definition no_rows (r : Store.qresult) : bool :=
  match r with
  | Store.Rows [] | Store.Views [] | Store.Counts [] | Store.Ok _ _ => true
  | _ => false
  end.

(** [updatedTaskResult[0][0]].  [updatedTaskResult[0]] is the first row of
    the re-read, and a row has nothing at index 0: the value is [undefined],
    which is [None] here, the conversion under [if (updatedTask)] is skipped,
    and [res.json(undefined)] sends a 200 response with no body.  With no
    first row, reading index 0 of [undefined] raises a TypeError. *)
Definition index_0_of_first (r : Store.qresult) : M (option task_view) :=
  if no_rows r then throw else ret None.

(** [updates.push(clause); values.push(v)] when the field is present. *)
Definition push_if (present : bool) (clause : string) (v : jsval)
  (acc : list string * list jsval) : list string * list jsval :=
  if present
  then ((fst acc ++ [clause])%list, (snd acc ++ [v])%list)
  else acc.

Definition patch_task (u : user) (taskId_param : string) (b : task_body)
  : world -> response * world :=
  try_catch
    (let title := b_title b in
     let description := b_description b in
     let status := b_status b in
     getConnection ;;
     let taskId := num_param (parseInt (Some taskId_param)) in
     taskResult <- conn_query
                     "SELECT * FROM tasks WHERE id = ? AND user_id = ?"
                     [taskId; JNum (uid u)] ;;
     if no_rows taskResult then release ;; ret not_found
     else
       t <- now ;;
       let acc := (["updated_at = ?"], [JStr t]) in
       if defined title && negb (has_properties title) then throw
       else if defined title && lt_1 (length_of title) then
         release ;; ret (bad_request "Title must be at least 1 character long")
       else
         let acc := push_if (defined title) "title = ?" title acc in
         let acc :=
           push_if (defined description) "description = ?" description acc in
         if defined status && negb (includes statuses status) then
           release ;; ret (bad_request "Invalid status")
         else
           let '(updates, values) :=
             push_if (defined status) "status = ?" status acc in
           if Nat.eqb (List.length updates) 1 then
             release ;; ret (bad_request "No fields to update provided")
           else
             let values := (values ++ [taskId])%list in
             conn_query
               ("UPDATE tasks SET " ++ join ", " updates ++ " WHERE id = ?")
               values ;;
             updatedTaskResult <- conn_query
               "SELECT id, title, description, status, user_id, created_at as createdAt, updated_at as updatedAt FROM tasks WHERE id = ?"
               [taskId] ;;
             updatedTask <- index_0_of_first updatedTaskResult ;;
             release ;;
             ret (res_json (TaskBody updatedTask)))
    (internal_error "Failed to update task").

(** *** DELETE /tasks/:taskId ([tasks.js], lines 232-261) *)

Definition delete_task (u : user) (taskId_param : string)
  : world -> response * world :=
  try_catch
    (getConnection ;;
     let taskId := num_param (parseInt (Some taskId_param)) in
     taskResult <- conn_query
                     "SELECT * FROM tasks WHERE id = ? AND user_id = ?"
                     [taskId; JNum (uid u)] ;;
     if no_rows taskResult then release ;; ret not_found
     else
       conn_query "DELETE FROM tasks WHERE id = ?" [taskId] ;;
       release ;;
       ret (res_json (MessageBody "Task deleted successfully")))
    (internal_error "Failed to delete task").

(** ** The specification's wording of the token extraction

    "Split on whitespace, take second token": the tokens of a header are its
    maximal runs of characters other than whitespace.  This definition follows
    the specification's words; the program's own extraction is
    [bearer_token]. *)

Definition spec_blank_to_space (c : ascii) : ascii :=
  if is_js_space c then " "%char else c.

Fixpoint string_map (f : ascii -> ascii) (s : string) : string :=
  match s with
  | EmptyString => EmptyString
  | String c s' => String (f c) (string_map f s')
  end.

Definition spec_whitespace_tokens (s : string) : list string :=
  filter (fun p => negb (String.eqb p ""))
    (split " " (string_map spec_blank_to_space s)).

Definition spec_second_token (authHeader : option string) : option string :=
  match authHeader with
  | None => None
  | Some h => nth_error (spec_whitespace_tokens h) 1
  end.


(** The test the gate applies to the extracted token, [!token]. *)
Definition token_missing (authHeader : option string) : bool :=
  negb (truthy (of_param (bearer_token authHeader))).

(** ** The row and count queries, decoded

    What the texts built by [list_query] and [count_query] say, as statements
    of the store; [list_query_text] and [count_query_text] below prove that
    the texts are the renderings of these. *)

Definition column_of (f : string) : option Store.column :=
  if String.eqb "title" f then Some Store.Title
  else if String.eqb "status" f then Some Store.Status
  else if String.eqb "created_at" f then Some Store.Created_at
  else if String.eqb "updated_at" f then Some Store.Updated_at
  else None.

(** [sortOrder === 'desc' ? 'DESC' : 'ASC'] on the second piece of [sort]. *)
Definition direction_of (sort : string) : Store.direction :=
  if jsval_eqb (index (split ":" sort) 1) (JStr "desc")
  then Store.DESC else Store.ASC.

Definition sort_order (q : query_string)
  : option (Store.column * Store.direction) :=
  match q_sort q with
  | Some sort =>
      if truthy (JStr sort) then
        match column_of (hd "" (split ":" sort)) with
        | Some c => Some (c, direction_of sort)
        | None => None
        end
      else Some (Store.Created_at, Store.DESC)
  | None => Some (Store.Created_at, Store.DESC)
  end.

(** Whether the row query filters on the status. *)
Definition status_filter (q : query_string) : bool :=
  truthy (of_param (q_status q)) && includes statuses (of_param (q_status q)).

(** Whether the count query filters on the status. *)
Definition count_status_filter (q : query_string) : bool :=
  truthy (of_param (q_status q)).

(** The rows a filtering query keeps. *)
Definition keeps (u : user) (with_status : bool) (q : query_string) (r : task)
  : bool :=
  if with_status
  then Store.owned_by (JNum (uid u)) r
       && Store.has_status (of_param (q_status q)) r
  else Store.owned_by (JNum (uid u)) r.

(** The tasks of a response: those of a listing, none otherwise. *)
Definition response_tasks (r : response) : list task_view :=
  match json r with
  | ListBody _ _ _ tasks => tasks
  | _ => []
  end.

(** The statement sent is recorded before anything else happens. *)
Definition logged (sql : string) (params : list jsval) (w : world) : world :=
  set_log (log w ++ [(sql, params)])%list w.

(** The rows the store answers the row query with, when it accepts its
    window. *)
Definition listed (u : user) (q : query_string) (rows : list task)
  : list task :=
  let '(_, limit, offset) := list_window q in
  match num_param limit, num_param offset with
  | JNum l, JNum o =>
      firstn (Z.to_nat l)
        (skipn (Z.to_nat o)
           (Store.ordered (sort_order q)
              (filter (keeps u (status_filter q) q) rows)))
  | _, _ => []
  end.

(** Whether the store accepts the window of the row query: [limit] and
    [offset] are written as whole numbers from 0 to 2^64 - 1. *)
Definition window_ok (q : query_string) : bool :=
  let '(_, limit, offset) := list_window q in
  match num_param limit, num_param offset with
  | JNum l, JNum o => Store.bound_ok l && Store.bound_ok o
  | _, _ => false
  end.

(** Whether one of the next [n] operations of the store raises. *)
Definition faulted (n : nat) (w : world) : bool :=
  existsb (fun b => b) (firstn n (faults w)).

(** ** What PATCH and DELETE read and write *)

(** [parseInt(req.params.taskId)] as it is bound: [JNum n] when the text
    starts with a number, [JNaN] when it does not. *)
Definition task_id (taskId_param : string) : jsval :=
  num_param (parseInt (Some taskId_param)).

Definition select_owned : string :=
  "SELECT * FROM tasks WHERE id = ? AND user_id = ?".

Definition select_view : string :=
  "SELECT id, title, description, status, user_id, created_at as createdAt, updated_at as updatedAt FROM tasks WHERE id = ?".

(** The rows of the ownership check: the task of that id, if the requester
    owns it. *)
Definition visible (u : user) (taskId : jsval) (rows : list task)
  : list task :=
  filter (fun r => Store.has_id taskId r && Store.owned_by (JNum (uid u)) r)
    rows.

(** A row after the UPDATE of a PATCH: the fields present in the body are
    written, [updated_at] is set to the time [t], nothing else changes; rows
    of another id are left as they are. *)
Definition patched (b : task_body) (t : string) (taskId : jsval) (r : task)
  : task :=
  if Store.has_id taskId r then
    mkTask (id r)
      (if defined (b_title b) then b_title b else title r)
      (if defined (b_description b) then b_description b else description r)
      (if defined (b_status b) then b_status b else status r)
      (user_id r) (created_at r) t
  else r.

(** The text and the parameters of the UPDATE a body leads to. *)
Definition update_query (b : task_body) (t : string) (taskId : jsval)
  : string * list jsval :=
  let acc :=
    push_if (defined (b_status b)) "status = ?" (b_status b)
      (push_if (defined (b_description b)) "description = ?"
         (b_description b)
         (push_if (defined (b_title b)) "title = ?" (b_title b)
            (["updated_at = ?"], [JStr t]))) in
  ("UPDATE tasks SET " ++ join ", " (fst acc) ++ " WHERE id = ?",
   (snd acc ++ [taskId])%list).

(** The end of an accepted PATCH: the UPDATE, the re-read and the answer. *)
Definition patch_tail (b : task_body) (t : string) (taskId : jsval)
  : M response :=
  conn_query (fst (update_query b t taskId)) (snd (update_query b t taskId)) ;;
  updatedTaskResult <- conn_query select_view [taskId] ;;
  updatedTask <- index_0_of_first updatedTaskResult ;;
  release ;;
  ret (res_json (TaskBody updatedTask)).

Definition insert_task : string :=
  "INSERT INTO tasks (title, description, status, user_id, created_at, updated_at) VALUES (?, ?, ?, ?, ?, ?)".

Definition delete_by_id : string := "DELETE FROM tasks WHERE id = ?".

(** The parameters POST binds to the INSERT, and the row the store makes of
    them. *)
Definition insert_params (u : user) (b : task_body) (t : string)
  : list jsval :=
  [b_title b; js_or (b_description b) JNull;
   js_or (b_status b) (JStr "pending"); JNum (uid u); JStr t; JStr t].

Definition inserted (u : user) (b : task_body) (t : string) (next : Z) : task :=
  mkTask next (b_title b) (js_or (b_description b) JNull)
    (js_or (b_status b) (JStr "pending")) (uid u) t t.

(** The clock as the handlers read it. *)
Definition now_text (w : world) : string :=
  replace "T" " " (substring 0 19 (clock w)).

(** ** The rest of [src/server.js] *)

(** *** Configuration defaults (lines 13-17) *)

(** [process.env.X || fallback]: an unset or empty variable gives the
    fallback. *)
Definition env_or (value : option string) (fallback : string) : string :=
  match value with
  | Some s => if truthy (JStr s) then s else fallback
  | None => fallback
  end.

Definition API_URL (env : option string) : string :=
  env_or env "http://localhost:5001".

(** *** loadOpenAPISpec (lines 29-46) *)

Section OpenAPI.

(** The keys of a server entry other than [url], and the keys of a document
    other than [servers], are carried along as they are. *)
Variables server_keys spec_keys : Type.

Record server : Type := mkServer {
  url : jsval;
  server_rest : server_keys
}.

(** [spec.servers]: an array of server entries, or any other value. *)
Inductive servers_field : Type :=
| ServersArray (l : list server)
| ServersOther (v : jsval).

Record openapi : Type := mkOpenapi {
  servers : servers_field;
  spec_rest : spec_keys
}.

Definition placeholder : string := "${API_URL}".

(** The function applied to the document [YAML.load] returned; [api_url] is
    the constant [API_URL]. *)
Definition loadOpenAPISpec (api_url : string) (spec : openapi) : openapi :=
  match servers spec with
  | ServersArray l =>
      mkOpenapi
        (ServersArray
           (map (fun sv =>
                   if jsval_eqb (url sv) (JStr placeholder)
                   then mkServer (JStr api_url) (server_rest sv)
                   else sv) l))
        (spec_rest spec)
  | ServersOther _ => spec
  end.

End OpenAPI.

Arguments url {server_keys} s.
Arguments server_rest {server_keys} s.
Arguments mkServer {server_keys} url server_rest.
Arguments ServersArray {server_keys} l.
Arguments ServersOther {server_keys} v.
Arguments servers {server_keys spec_keys} o.
Arguments spec_rest {server_keys spec_keys} o.
Arguments mkOpenapi {server_keys spec_keys} servers spec_rest.
Arguments loadOpenAPISpec {server_keys spec_keys} api_url spec.

(** *** The startup probe of the database (lines 55-88) *)

(** A statement whose result the program does not read: it is recorded, and
    it raises when the fault plan says so. *)
Definition probe_query (sql : string) : M unit :=
  (fun w => (Returned tt, set_log (log w ++ [(sql, [])])%list w)) ;;
  store_op.

(** [try { m } catch (e) { h }] inside a computation. *)
Definition catch {A : Type} (m : M A) (h : M A) : M A :=
  fun w =>
    match m w with
    | (Returned a, w') => (Returned a, w')
    | (Thrown, w') => h w'
    end.

(** The inner [try]: the two table checks. *)
Definition check_tables : M (list string) :=
  catch
    (probe_query "SELECT 1 FROM users LIMIT 1" ;;
     probe_query "SELECT 1 FROM tasks LIMIT 1" ;;
     ret ["Database tables verified"])
    (ret ["Database tables not found. Please run database.sql:"]).

(** The probe; its value is the lines written to the console.  [conn] is
    assigned when [getConnection] returns, and the [finally] block releases
    it when it is assigned. *)
Definition database_probe : world -> list string * world :=
  fun w =>
    let attempt := "Attempting to connect to database with config:" in
    let '(conn, lines, w1) :=
      match getConnection w with
      | (Returned _, w1) =>
          match check_tables w1 with
          | (Returned ls, w2) =>
              (true,
               (attempt :: "Database connection established successfully"
                  :: ls)%list, w2)
          | (Thrown, w2) =>
              (true,
               [attempt; "Database connection established successfully";
                "Database connection failed:"; "Error details:"], w2)
          end
      | (Thrown, w1) =>
          (false,
           [attempt; "Database connection failed:"; "Error details:"], w1)
      end in
    if conn : bool then (lines, snd (release w1)) else (lines, w1).

(** *** The global error handler (lines 165-179) *)




(** ** Predicates of the further properties *)

(** The body passes the validations of PATCH. *)
Definition patch_accepts (b : task_body) : bool :=
  negb (defined (b_title b) && negb (has_properties (b_title b)))
  && negb (defined (b_title b) && lt_1 (length_of (b_title b)))
  && negb (defined (b_status b) && negb (includes statuses (b_status b)))
  && (defined (b_title b) || defined (b_description b) || defined (b_status b)).

(** The body passes the validations of POST. *)
Definition post_accepts (b : task_body) : bool :=
  negb (negb (truthy (b_title b)) || lt_1 (length_of (b_title b)))
  && negb (truthy (b_status b) && negb (includes statuses (b_status b))).


(** The rows that belong to other users than [u]. *)
Definition others (u : user) (rows : list task) : list task :=
  filter (fun r => negb (Store.owned_by (JNum (uid u)) r)) rows.

(** An error response in the common shape: the code mirrors the status, and
    the label is the one of the status. *)
Definition error_shaped (r : response) : bool :=
  match json r with
  | ErrorBody code error _ =>
      (code =? http_status r)
      && ((code =? 400) && String.eqb error "Bad Request"
          || (code =? 401) && String.eqb error "Unauthorized"
          || (code =? 403) && String.eqb error "Forbidden"
          || (code =? 404) && String.eqb error "Not Found"
          || (code =? 500) && String.eqb error "Internal Server Error")
  | _ => false
  end.

(** A success response: 200 or 201, with a body that is not an error. *)
Definition success_shaped (r : response) : bool :=
  match json r with
  | ErrorBody _ _ _ => false
  | CreatedBody _ _ _ _ _ _ => http_status r =? 201
  | _ => http_status r =? 200
  end.

(** ** Sample data for the worked examples *)

(** A verifier that accepts the one token "good", as user 7. *)
Definition sample_verify (token secret : string) : option user :=
  if String.eqb token "good" then Some (mkUser 7) else None.

(** A handler that only reports which user it ran for. *)
Definition sample_handler (u : user) (w : world) : response * world :=
  (res_json (MessageBody (if uid u =? 7 then "ran for 7" else "ran")), w).

Definition sample_tasks : list task :=
  [mkTask 1 (JStr "b") JNull (JStr "pending") 7
     "2026-01-01 00:00:00" "2026-01-01 00:00:00";
   mkTask 2 (JStr "a") JNull (JStr "completed") 7
     "2026-01-02 00:00:00" "2026-01-02 00:00:00";
   mkTask 3 (JStr "c") JNull (JStr "pending") 8
     "2026-01-03 00:00:00" "2026-01-03 00:00:00"].

(** Three tasks, two of user 7 and one of user 8; a healthy store; no
    connection held. *)
Definition sample_world : world :=
  mkWorld sample_tasks 4 0 [] [] "2026-11-01T17:54:00.000Z".

(** The header "Bearer<TAB>t": scheme and token set apart by a tab. *)
Definition bearer_tab (t : string) : string :=
  "Bearer" ++ String "009"%char t.

(** The sample world with a fault plan for its store. *)
Definition faulty_world (plan : list bool) : world :=
  mkWorld sample_tasks 4 0 plan [] "2026-11-01T17:54:00.000Z".

(** * Properties *)

(** ** The primitives on examples *)

(** What [parseInt] reads: leading white space of any kind is skipped, the
    digits stop at the first character that is none, and an integer beyond
    2^53 is rounded. *)
Example parseInt_examples :
  parseInt (Some "12") = Num 12 /\ parseInt (Some "-5") = Num (-5) /\
  parseInt (Some "abc") = NaN /\ parseInt (Some " 7px") = Num 7 /\
  parseInt (Some "0x1f") = Num 31 /\ parseInt (Some "") = NaN /\
  parseInt None = NaN /\ parseInt (Some "1.5") = Num 1 /\
  parseInt (Some (String "194" (String "160" "5"))) = Num 5 /\
  parseInt (Some (String "239" (String "187" (String "191" "12")))) = Num 12 /\
  parseInt (Some "9007199254740993") = Num 9007199254740992 /\
  parseInt (Some "-0") = Num 0.
Proof. repeat split. Qed.

(** A number beyond 2^53 is bound as it is printed. *)
Example num_param_examples :
  num_param (Num 12) = JNum 12 /\ num_param (Num (-60)) = JNum (-60) /\
  num_param NaN = JNaN /\ num_param (Inf false) = JNaN /\
  num_param (Num (2 ^ 53)) = JNum 9007199254740992 /\
  num_param (Num (2 ^ 60)) = JNum 1152921504606847000 /\
  num_param (Num (2 ^ 64)) = JNum 18446744073709552000 /\
  num_param (Num 90071992547409904) = JNum 90071992547409900 /\
  list_query (mkUser 7) (mkQuery (Some "9007199254740993") None None None) =
    ("SELECT * FROM tasks WHERE user_id = ? ORDER BY created_at DESC LIMIT ? OFFSET ?",
     [JNum 7; JNum 10; JNum 90071992547409900]).
Proof. vm_compute. repeat split. Qed.

Example split_examples :
  split " " "Bearer abc" = ["Bearer"; "abc"] /\
  split " " "Bearer" = ["Bearer"] /\
  split " " "" = [""] /\
  split " " "Bearer  abc" = ["Bearer"; ""; "abc"] /\
  split ":" "title:desc" = ["title"; "desc"] /\
  split ":" "title:" = ["title"; ""].
Proof. repeat split. Qed.

(** ** The authorization gate *)

Lemma split_nonempty (sep : ascii) (s : string) : split sep s <> [].
Proof.
  induction s as [|c s IH]; simpl; [discriminate|].
  destruct (Ascii.eqb c sep); [discriminate|].
  destruct (split sep s); discriminate.
Qed.




(** C3 (as amended): the token is the piece at index 1 of the header split at
    each single space character.  When the header is absent or that piece is
    missing or empty, the gate answers 401 "Authentication token is required"
    and the handler does not run; when the piece is present and its
    verification fails, the gate answers 403 "Invalid or expired token", never
    401; when verification succeeds, the decoded identity is attached and the
    handler runs with it. *)
Theorem authenticateToken_401_403_next
  (jwt_verify : string -> string -> option user) (JWT_SECRET : string)
  (authHeader : option string)
  (handler : user -> world -> response * world) (w : world) :
  (token_missing authHeader = true ->
   authenticateToken jwt_verify JWT_SECRET authHeader =
     Reject (mkResponse 401
               (ErrorBody 401 "Unauthorized" "Authentication token is required"))
   /\ route jwt_verify JWT_SECRET handler authHeader w =
        (mkResponse 401
           (ErrorBody 401 "Unauthorized" "Authentication token is required"),
         w))
  /\ (forall token,
        bearer_token authHeader = Some token -> token <> "" ->
        jwt_verify token JWT_SECRET = None ->
        authenticateToken jwt_verify JWT_SECRET authHeader =
          Reject (mkResponse 403
                    (ErrorBody 403 "Forbidden" "Invalid or expired token"))
        /\ route jwt_verify JWT_SECRET handler authHeader w =
             (mkResponse 403
                (ErrorBody 403 "Forbidden" "Invalid or expired token"), w))
  /\ (forall token u,
        bearer_token authHeader = Some token -> token <> "" ->
        jwt_verify token JWT_SECRET = Some u ->
        authenticateToken jwt_verify JWT_SECRET authHeader = Next u
        /\ route jwt_verify JWT_SECRET handler authHeader w = handler u w).
Proof.
  unfold token_missing, route, authenticateToken.
  repeat split.
  - destruct (bearer_token authHeader) as [t|]; simpl in *; [|reflexivity].
    destruct (String.eqb t ""); [reflexivity|discriminate].
  - destruct (bearer_token authHeader) as [t|]; simpl in *; [|reflexivity].
    destruct (String.eqb t ""); [reflexivity|discriminate].
  - rewrite H. simpl. apply String.eqb_neq in H0. rewrite H0. simpl.
    rewrite H1. reflexivity.
  - rewrite H. simpl. apply String.eqb_neq in H0. rewrite H0. simpl.
    rewrite H1. reflexivity.
  - rewrite H. simpl. apply String.eqb_neq in H0. rewrite H0. simpl.
    rewrite H1. reflexivity.
  - rewrite H. simpl. apply String.eqb_neq in H0. rewrite H0. simpl.
    rewrite H1. reflexivity.
Qed.

Lemma authenticateToken_401_403_next_witness :
  authenticateToken sample_verify "s" (Some "Bearer") =
    Reject (mkResponse 401
              (ErrorBody 401 "Unauthorized" "Authentication token is required"))
  /\ authenticateToken sample_verify "s" (Some "Bearer bad") =
       Reject (mkResponse 403
                 (ErrorBody 403 "Forbidden" "Invalid or expired token"))
  /\ route sample_verify "s" sample_handler (Some "Bearer good") sample_world =
       sample_handler (mkUser 7) sample_world.
Proof.
  split; [|split].
  - destruct (proj1 (authenticateToken_401_403_next sample_verify "s"
                       (Some "Bearer") sample_handler sample_world)
                eq_refl) as [H _].
    exact H.
  - destruct (proj1 (proj2 (authenticateToken_401_403_next sample_verify "s"
                              (Some "Bearer bad") sample_handler sample_world))
                "bad" eq_refl ltac:(discriminate) eq_refl) as [H _].
    exact H.
  - destruct (proj2 (proj2 (authenticateToken_401_403_next sample_verify "s"
                              (Some "Bearer good") sample_handler sample_world))
                "good" (mkUser 7) eq_refl ltac:(discriminate) eq_refl)
      as [_ H].
    exact H.
Defined.

(** C3 as the specification words it ("split on whitespace, take second
    token") fails on a header whose scheme and token are set apart by a tab,
    or by two spaces: the second whitespace-separated token is there and
    verifies, yet the gate answers 401 and the handler does not run; and where
    that token does not verify the gate answers 401, not 403. *)
Lemma authenticateToken_whitespace_counterexample :
  (spec_second_token (Some (bearer_tab "good")) = Some "good"
   /\ sample_verify "good" "s" = Some (mkUser 7)
   /\ route sample_verify "s" sample_handler (Some (bearer_tab "good"))
        sample_world =
      (mkResponse 401
         (ErrorBody 401 "Unauthorized" "Authentication token is required"),
       sample_world))
  /\ (spec_second_token (Some "Bearer  good") = Some "good"
      /\ authenticateToken sample_verify "s" (Some "Bearer  good") =
           Reject (mkResponse 401
                     (ErrorBody 401 "Unauthorized"
                        "Authentication token is required")))
  /\ (spec_second_token (Some (bearer_tab "bad")) = Some "bad"
      /\ sample_verify "bad" "s" = None
      /\ authenticateToken sample_verify "s" (Some (bearer_tab "bad")) =
           Reject (mkResponse 401
                     (ErrorBody 401 "Unauthorized"
                        "Authentication token is required"))).
Proof. repeat split. Qed.




(** ** The store reads the texts the handlers build *)

Lemma parse_render (st : Store.statement) :
  Store.parse (Store.render st) = Some st.
Proof.
  destruct st as [ws [[c d]|] | ws | | | | t d s | ];
    try destruct ws; try destruct c; try destruct d; try destruct t;
    try destruct s; reflexivity.
Qed.

Lemma exec_render (st : Store.statement) (ps : list jsval) (d : Store.db) :
  Store.exec (Store.render st) ps d = Store.run st ps d.
Proof. unfold Store.exec. rewrite parse_render. reflexivity. Qed.

Lemma column_of_name (f : string) (c : Store.column) :
  column_of f = Some c -> f = Store.column_name c.
Proof.
  unfold column_of.
  destruct (String.eqb "title" f) eqn:E1;
    [apply String.eqb_eq in E1; intros [= <-]; now subst|].
  destruct (String.eqb "status" f) eqn:E2;
    [apply String.eqb_eq in E2; intros [= <-]; now subst|].
  destruct (String.eqb "created_at" f) eqn:E3;
    [apply String.eqb_eq in E3; intros [= <-]; now subst|].
  destruct (String.eqb "updated_at" f) eqn:E4;
    [apply String.eqb_eq in E4; intros [= <-]; now subst|].
  discriminate.
Qed.

Lemma column_of_includes (f : string) :
  truthy (JStr f) && includes sort_fields (JStr f) =
  match column_of f with Some _ => true | None => false end.
Proof.
  unfold column_of, includes, sort_fields, existsb, jsval_eqb, truthy.
  destruct (String.eqb "title" f) eqn:E1;
    [apply String.eqb_eq in E1; now subst|].
  destruct (String.eqb "status" f) eqn:E2;
    [apply String.eqb_eq in E2; now subst|].
  destruct (String.eqb "created_at" f) eqn:E3;
    [apply String.eqb_eq in E3; now subst|].
  destruct (String.eqb "updated_at" f) eqn:E4;
    [apply String.eqb_eq in E4; now subst|].
  apply andb_false_r.
Qed.

Lemma list_query_text (u : user) (q : query_string) :
  fst (list_query u q) =
  Store.render (Store.SelectList (status_filter q) (sort_order q)).
Proof.
  unfold list_query, sort_order, status_filter.
  destruct (list_window q) as [[p l] o].
  destruct (truthy (of_param (q_status q))
            && includes statuses (of_param (q_status q)));
    (destruct (q_sort q) as [sort|]; [|reflexivity];
     destruct (truthy (JStr sort)); [|reflexivity];
     rewrite column_of_includes;
     destruct (column_of (hd "" (split ":" sort))) as [c|] eqn:Ec;
     [|reflexivity];
     apply column_of_name in Ec; rewrite Ec; unfold direction_of;
     destruct (jsval_eqb (index (split ":" sort) 1) (JStr "desc"));
     destruct c; reflexivity).
Qed.

Lemma list_query_params (u : user) (q : query_string) :
  snd (list_query u q) =
  (JNum (uid u)
   :: (if status_filter q then [of_param (q_status q)] else [])
   ++ [num_param (parseInt_or (q_limit q) 10);
       num_param
         (number_mul (number_sub (parseInt_or (q_page q) 1) (Num 1))
            (parseInt_or (q_limit q) 10))])%list.
Proof.
  unfold list_query, status_filter, list_window.
  destruct (truthy (of_param (q_status q))
            && includes statuses (of_param (q_status q))); reflexivity.
Qed.

Lemma count_query_text (u : user) (q : query_string) :
  fst (count_query u q) =
  Store.render (Store.SelectCount (count_status_filter q)).
Proof.
  unfold count_query, count_status_filter.
  destruct (truthy (of_param (q_status q))); reflexivity.
Qed.

Lemma count_query_params (u : user) (q : query_string) :
  snd (count_query u q) =
  if count_status_filter q then [JNum (uid u); of_param (q_status q)]
  else [JNum (uid u)].
Proof. reflexivity. Qed.

Lemma exec_count (u : user) (q : query_string) (d : Store.db) :
  Store.exec (fst (count_query u q)) (snd (count_query u q)) d =
  Some (Store.Counts
          [Z.of_nat
             (List.length (filter (keeps u (count_status_filter q) q) (fst d)))],
        d).
Proof.
  rewrite count_query_text, exec_render, count_query_params.
  destruct d as [rows next]. unfold keeps.
  destruct (count_status_filter q); reflexivity.
Qed.

(** The store answers the row query exactly when it accepts its window. *)
Lemma exec_list (u : user) (q : query_string) (d : Store.db) :
  Store.exec (fst (list_query u q)) (snd (list_query u q)) d =
  if window_ok q then Some (Store.Rows (listed u q (fst d)), d) else None.
Proof.
  rewrite list_query_text, exec_render, list_query_params.
  destruct d as [rows next]. unfold keeps, window_ok, listed, list_window.
  destruct (parseInt_or (q_limit q) 10) as [l| |];
    destruct (number_mul _ _) as [o| |];
    destruct (status_filter q); cbn [num_param app Store.run fst];
    try reflexivity;
    unfold Store.window;
    destruct (Store.bound_ok (to_decimal l) && Store.bound_ok (to_decimal o));
    reflexivity.
Qed.

Lemma conn_query_unfold (sql : string) (params : list jsval) (w : world) :
  conn_query sql params w =
  match faults w with
  | true :: fs => (Thrown, set_faults fs (logged sql params w))
  | false :: fs =>
      match Store.exec sql params (table w, next_id w) with
      | Some (r, d) =>
          (Returned r, set_db d (set_faults fs (logged sql params w)))
      | None => (Thrown, set_faults fs (logged sql params w))
      end
  | [] =>
      match Store.exec sql params (table w, next_id w) with
      | Some (r, d) => (Returned r, set_db d (logged sql params w))
      | None => (Thrown, logged sql params w)
      end
  end.
Proof.
  unfold conn_query, bind, store_op, logged. destruct w as [tb nx h fs lg ck].
  cbn [faults set_log table next_id held log clock].
  destruct fs as [|[] fs]; reflexivity.
Qed.

Lemma exec_owned (i u : jsval) (d : Store.db) :
  Store.exec select_owned [i; u] d =
  if Store.bare_word i then None
  else
    Some (Store.Rows
            (filter (fun r => Store.has_id i r && Store.owned_by u r) (fst d)),
          d).
Proof.
  change select_owned with (Store.render Store.SelectOwned).
  rewrite exec_render. destruct d. reflexivity.
Qed.

Lemma exec_view (i : jsval) (d : Store.db) :
  Store.exec select_view [i] d =
  if Store.bare_word i then None
  else Some (Store.Views (map Store.view (filter (Store.has_id i) (fst d))), d).
Proof.
  change select_view with (Store.render Store.SelectView).
  rewrite exec_render. destruct d. reflexivity.
Qed.

Lemma exec_delete (i : jsval) (d : Store.db) :
  Store.exec delete_by_id [i] d =
  if Store.bare_word i then None
  else
    Some (Store.Ok 0 (Z.of_nat (List.length (filter (Store.has_id i) (fst d)))),
          (filter (fun r => negb (Store.has_id i r)) (fst d), snd d)).
Proof.
  change delete_by_id with (Store.render Store.DeleteTask).
  rewrite exec_render. destruct d. reflexivity.
Qed.

Lemma exec_update (b : task_body) (t : string) (i : jsval) (d : Store.db) :
  Store.exec (fst (update_query b t i)) (snd (update_query b t i)) d =
  if Store.bare_word i then None
  else
    Some (Store.Ok 0 (Z.of_nat (List.length (filter (Store.has_id i) (fst d)))),
          (map (patched b t i) (fst d), snd d)).
Proof.
  destruct d as [rows next]. unfold update_query, patched.
  destruct (defined (b_title b)), (defined (b_description b)),
    (defined (b_status b));
    cbn [push_if fst snd app];
    match goal with
    | |- Store.exec ?sql _ _ = _ =>
        let st := eval vm_compute in (Store.parse sql) in
        match st with
        | Some ?s => change sql with (Store.render s)
        end
    end;
    rewrite exec_render; reflexivity.
Qed.

(** ** Running a handler *)

Ltac world_simpl :=
  cbn [faults table next_id held log clock set_held set_faults set_log set_db
       logged fst snd option_map].

Ltac run_handler :=
  unfold try_catch, getConnection, release, now, ret, throw, store_op, bind;
  world_simpl;
  repeat (first [ rewrite conn_query_unfold
                | rewrite exec_count
                | rewrite exec_list
                | rewrite exec_owned
                | rewrite exec_view
                | rewrite exec_delete
                | rewrite exec_update
                | rewrite exec_render ];
          world_simpl).

Lemma get_tasks_healthy (u : user) (q : query_string) (w : world) :
  faults w = [] ->
  get_tasks u q w =
  (internal_error "Failed to fetch tasks",
   let w2 := logged (fst (list_query u q)) (snd (list_query u q))
               (logged (fst (count_query u q)) (snd (count_query u q)) w) in
   if window_ok q then w2 else set_held (S (held w)) w2).
Proof.
  intros H. destruct w as [tb nx h fs lg ck]. cbn [faults] in H. subst fs.
  unfold get_tasks, list_window, map_tasks. run_handler.
  destruct (window_ok q); world_simpl; [|reflexivity].
  destruct (first_task _); reflexivity.
Qed.

(** Whatever the parameters and the fault plan, a listing request is answered
    by the 500 response: the requests that the store answers end in the
    TypeError of [tasks.map]. *)
Lemma get_tasks_response (u : user) (q : query_string) (w : world) :
  fst (get_tasks u q w) = internal_error "Failed to fetch tasks".
Proof.
  destruct w as [tb nx h fs lg ck].
  unfold get_tasks, list_window, map_tasks.
  destruct fs as [|[] [|[] [|[] fs]]]; run_handler;
    try reflexivity;
    destruct (window_ok q); world_simpl; try reflexivity;
    destruct (first_task _); reflexivity.
Qed.


(** The statements a listing request sends: the count query, then the row
    query, as far as the fault plan lets it go. *)
Lemma get_tasks_log (u : user) (q : query_string) (w : world) :
  exists k,
    log (snd (get_tasks u q w)) =
    (log w ++ firstn k [count_query u q; list_query u q])%list.
Proof.
  destruct w as [tb nx h fs lg ck].
  unfold get_tasks, list_window, map_tasks.
  destruct fs as [|[] [|[] [|[] fs]]]; run_handler;
    try (destruct (window_ok q); world_simpl);
    try (destruct (first_task _)); world_simpl;
    first [ exists 0%nat; cbn [firstn snd log]; now rewrite app_nil_r
          | exists 1%nat; cbn [firstn snd log];
            now rewrite <- surjective_pairing
          | exists 2%nat; cbn [firstn snd log]; rewrite <- app_assoc;
            now rewrite <- !surjective_pairing ].
Qed.


(** With no fault before the row query is sent, both queries are sent. *)
Lemma get_tasks_sends (u : user) (q : query_string) (w : world) :
  faulted 2 w = false ->
  log (snd (get_tasks u q w)) =
  (log w ++ [count_query u q; list_query u q])%list.
Proof.
  destruct w as [tb nx h fs lg ck].
  unfold get_tasks, list_window, map_tasks, faulted.
  destruct fs as [|[] [|[] [|[] fs]]]; run_handler;
    try discriminate; intros _;
    try (destruct (window_ok q); world_simpl);
    try (destruct (first_task _)); world_simpl;
    cbn [snd log]; rewrite <- app_assoc; now rewrite <- !surjective_pairing.
Qed.

(** ** C1: the listing is scoped to the requester *)

(** C1: whatever the identity, the page, limit, status and sort parameters,
    the world and its fault plan, every task of the listing answered by
    GET /tasks has the identity's id as its [user_id]; the request sends no
    statement but the count query and the row query, each restricted by
    [WHERE user_id = ?] with the identity's id bound to it, and that bound
    value is the same for every choice of the caller's parameters. *)
Theorem get_tasks_only_own_tasks (u : user) (q : query_string) (w : world) :
  Forall (fun t => v_user_id t = uid u)
    (response_tasks (fst (get_tasks u q w)))
  /\ (exists k,
        log (snd (get_tasks u q w)) =
        (log w ++ firstn k [count_query u q; list_query u q])%list)
  /\ String.prefix "SELECT * FROM tasks WHERE user_id = ?"
       (fst (list_query u q)) = true
  /\ String.prefix "SELECT COUNT(*) as total FROM tasks WHERE user_id = ?"
       (fst (count_query u q)) = true
  /\ (forall q' : query_string,
        hd_error (snd (list_query u q')) = Some (JNum (uid u))
        /\ hd_error (snd (count_query u q')) = Some (JNum (uid u))).
Proof.
  split; [|split; [|split; [|split]]].
  - rewrite get_tasks_response. constructor.
  - apply get_tasks_log.
  - rewrite list_query_text.
    destruct (status_filter q), (sort_order q) as [[[] []]|]; reflexivity.
  - rewrite count_query_text. destruct (count_status_filter q); reflexivity.
  - intros q'. rewrite list_query_params, count_query_params.
    destruct (count_status_filter q'); split; reflexivity.
Qed.

(** A listing request of user 7 in the sample world: the store answers both
    queries, the connection is given back, and the answer is the 500
    response. *)
Example get_tasks_sample :
  get_tasks (mkUser 7) (mkQuery None None None None) sample_world =
  (mkResponse 500
     (ErrorBody 500 "Internal Server Error" "Failed to fetch tasks"),
   mkWorld sample_tasks 4 0 []
     [("SELECT COUNT(*) as total FROM tasks WHERE user_id = ?", [JNum 7]);
      ("SELECT * FROM tasks WHERE user_id = ? ORDER BY created_at DESC LIMIT ? OFFSET ?",
       [JNum 7; JNum 10; JNum 0])]
     "2026-11-01T17:54:00.000Z").
Proof. reflexivity. Qed.

(** ** C4: the status filter of the count query *)

(** C4 (evaluation at the failing input): [GET /tasks?status=bogus] by user 7
    in the sample world.  The row query carries no status filter: it is the
    row query of the request with no status parameter.  The count query does
    carry [AND status = ?], bound to "bogus", where the request with no
    status parameter sends the count query without it.  These two are the
    statements the request sends, and the request is answered 500. *)
Theorem get_tasks_bogus_status_count_query :
  list_query (mkUser 7) (mkQuery None None (Some "bogus") None) =
    ("SELECT * FROM tasks WHERE user_id = ? ORDER BY created_at DESC LIMIT ? OFFSET ?",
     [JNum 7; JNum 10; JNum 0])
  /\ list_query (mkUser 7) (mkQuery None None None None) =
       ("SELECT * FROM tasks WHERE user_id = ? ORDER BY created_at DESC LIMIT ? OFFSET ?",
        [JNum 7; JNum 10; JNum 0])
  /\ count_query (mkUser 7) (mkQuery None None (Some "bogus") None) =
       ("SELECT COUNT(*) as total FROM tasks WHERE user_id = ? AND status = ?",
        [JNum 7; JStr "bogus"])
  /\ count_query (mkUser 7) (mkQuery None None None None) =
       ("SELECT COUNT(*) as total FROM tasks WHERE user_id = ?", [JNum 7])
  /\ get_tasks (mkUser 7) (mkQuery None None (Some "bogus") None)
       sample_world =
     (mkResponse 500
        (ErrorBody 500 "Internal Server Error" "Failed to fetch tasks"),
      mkWorld sample_tasks 4 0 []
        [("SELECT COUNT(*) as total FROM tasks WHERE user_id = ? AND status = ?",
          [JNum 7; JStr "bogus"]);
         ("SELECT * FROM tasks WHERE user_id = ? ORDER BY created_at DESC LIMIT ? OFFSET ?",
          [JNum 7; JNum 10; JNum 0])]
        "2026-11-01T17:54:00.000Z").
Proof. repeat split. Qed.

(** What holds of a status outside the enumeration, for every request: the
    row query is the one of the request with no status parameter; the count
    query filters on the status as soon as the parameter is a non-empty
    text. *)
Lemma get_tasks_invalid_status (u : user) (p l so : option string)
  (s : string) :
  includes statuses (JStr s) = false ->
  list_query u (mkQuery p l (Some s) so) = list_query u (mkQuery p l None so)
  /\ (s <> "" ->
      count_query u (mkQuery p l (Some s) so) =
        ("SELECT COUNT(*) as total FROM tasks WHERE user_id = ? AND status = ?",
         [JNum (uid u); JStr s])).
Proof.
  intros H. split.
  - unfold list_query, list_window. cbn [q_status q_page q_limit q_sort of_param].
    rewrite H, andb_false_r. reflexivity.
  - intros Hs. unfold count_query. cbn [q_status of_param truthy].
    apply String.eqb_neq in Hs. rewrite Hs. reflexivity.
Qed.

(** ** C5: ordering *)

Lemma column_of_column_name (c : Store.column) :
  column_of (Store.column_name c) = Some c.
Proof. destruct c; reflexivity. Qed.

Lemma sort_order_listed (q : query_string) (sort : string)
  (c : Store.column) :
  q_sort q = Some sort -> hd "" (split ":" sort) = Store.column_name c ->
  sort_order q = Some (c, direction_of sort).
Proof.
  intros Hs Hf. unfold sort_order. rewrite Hs.
  destruct (truthy (JStr sort)) eqn:Et.
  - rewrite Hf, column_of_column_name. reflexivity.
  - simpl in Et. apply negb_false_iff, String.eqb_eq in Et. subst sort.
    destruct c; discriminate.
Qed.

Lemma sort_order_unlisted (q : query_string) (sort : string) :
  q_sort q = Some sort -> sort <> "" ->
  includes sort_fields (JStr (hd "" (split ":" sort))) = false ->
  sort_order q = None.
Proof.
  intros Hs Hne Hf. unfold sort_order. rewrite Hs.
  apply String.eqb_neq in Hne. cbn [truthy]. rewrite Hne. cbn [negb].
  pose proof (column_of_includes (hd "" (split ":" sort))) as H.
  rewrite Hf, andb_false_r in H.
  destruct (column_of (hd "" (split ":" sort))); [discriminate|reflexivity].
Qed.

Lemma sort_order_default (q : query_string) :
  q_sort q = None \/ q_sort q = Some "" ->
  sort_order q = Some (Store.Created_at, Store.DESC).
Proof. unfold sort_order. intros [-> | ->]; reflexivity. Qed.

Lemma direction_of_name (sort : string) :
  Store.direction_name (direction_of sort) =
  match nth_error (split ":" sort) 1 with
  | Some o => if String.eqb o "desc" then "DESC" else "ASC"
  | None => "ASC"
  end.
Proof.
  unfold direction_of, index.
  destruct (nth_error (split ":" sort) 1) as [o|]; simpl; [|reflexivity].
  destruct (String.eqb o "desc"); reflexivity.
Qed.

(** C5 (as amended): the ordering a listing request asks the store for.  For
    a sort parameter whose field (the piece before the first colon) is one of
    title, status, created_at and updated_at, the row query ends in
    [ORDER BY field DESC] when the piece after the first colon is the literal
    "desc" and in [ORDER BY field ASC] for any other direction or none; with
    no sort parameter (or an empty one) the row query ends in
    [ORDER BY created_at DESC]; for a field outside the allow-list the row
    query carries no ORDER BY clause at all.  That row query is the second
    statement the request sends, after the count query, whenever neither the
    acquisition of the connection nor the count query faults. *)
Theorem get_tasks_sort_parameter (u : user) (q : query_string) :
  (forall sort c,
      q_sort q = Some sort ->
      hd "" (split ":" sort) = Store.column_name c ->
      fst (list_query u q) =
        "SELECT * FROM tasks WHERE user_id = ?"
        ++ (if status_filter q then " AND status = ?" else "")
        ++ " ORDER BY " ++ Store.column_name c ++ " "
        ++ (match nth_error (split ":" sort) 1 with
            | Some o => if String.eqb o "desc" then "DESC" else "ASC"
            | None => "ASC"
            end)
        ++ " LIMIT ? OFFSET ?")
  /\ (q_sort q = None \/ q_sort q = Some "" ->
      fst (list_query u q) =
        "SELECT * FROM tasks WHERE user_id = ?"
        ++ (if status_filter q then " AND status = ?" else "")
        ++ " ORDER BY created_at DESC LIMIT ? OFFSET ?")
  /\ (forall sort,
        q_sort q = Some sort -> sort <> "" ->
        includes sort_fields (JStr (hd "" (split ":" sort))) = false ->
        fst (list_query u q) =
          "SELECT * FROM tasks WHERE user_id = ?"
          ++ (if status_filter q then " AND status = ?" else "")
          ++ " LIMIT ? OFFSET ?")
  /\ (forall w,
        faulted 2 w = false ->
        log (snd (get_tasks u q w)) =
        (log w ++ [count_query u q; list_query u q])%list).
Proof.
  split; [|split; [|split]].
  - intros sort c Hs Hf.
    rewrite list_query_text, (sort_order_listed q sort c Hs Hf).
    rewrite <- direction_of_name.
    destruct (status_filter q), c, (direction_of sort); reflexivity.
  - intros H. rewrite list_query_text, (sort_order_default q H).
    destruct (status_filter q); reflexivity.
  - intros sort Hs Hne Hf.
    rewrite list_query_text, (sort_order_unlisted q sort Hs Hne Hf).
    destruct (status_filter q); reflexivity.
  - intros w. apply get_tasks_sends.
Qed.

Lemma get_tasks_sort_parameter_witness :
  fst (list_query (mkUser 7) (mkQuery None None None (Some "title:desc"))) =
    "SELECT * FROM tasks WHERE user_id = ? ORDER BY title DESC LIMIT ? OFFSET ?"
  /\ fst (list_query (mkUser 7) (mkQuery None None None None)) =
       "SELECT * FROM tasks WHERE user_id = ? ORDER BY created_at DESC LIMIT ? OFFSET ?"
  /\ fst (list_query (mkUser 7) (mkQuery None None None (Some "nope:asc"))) =
       "SELECT * FROM tasks WHERE user_id = ? LIMIT ? OFFSET ?"
  /\ log (snd (get_tasks (mkUser 7)
                 (mkQuery None None None (Some "status")) sample_world)) =
       [("SELECT COUNT(*) as total FROM tasks WHERE user_id = ?", [JNum 7]);
        ("SELECT * FROM tasks WHERE user_id = ? ORDER BY status ASC LIMIT ? OFFSET ?",
         [JNum 7; JNum 10; JNum 0])].
Proof.
  split; [|split; [|split]].
  - exact (proj1 (get_tasks_sort_parameter (mkUser 7)
                    (mkQuery None None None (Some "title:desc")))
             "title:desc" Store.Title eq_refl eq_refl).
  - exact (proj1 (proj2 (get_tasks_sort_parameter (mkUser 7)
                           (mkQuery None None None None)))
             (or_introl eq_refl)).
  - exact (proj1 (proj2 (proj2 (get_tasks_sort_parameter (mkUser 7)
                                  (mkQuery None None None (Some "nope:asc")))))
             "nope:asc" eq_refl ltac:(discriminate) eq_refl).
  - exact (proj2 (proj2 (proj2 (get_tasks_sort_parameter (mkUser 7)
                                  (mkQuery None None None (Some "status")))))
             sample_world eq_refl).
Defined.

(** C5 as stated fails in two ways.  For a field outside the allow-list:
    with [sort=unknownfield:asc] the row query has no ORDER BY clause, where
    the request with no sort parameter orders by created_at DESC.  And no
    results come back in any order: with [sort=title:desc] the store answers
    both queries, the connection is given back, and the request is answered
    500. *)
Lemma get_tasks_unknown_sort_field_counterexample :
  fst (list_query (mkUser 7) (mkQuery None None None (Some "unknownfield:asc")))
    = "SELECT * FROM tasks WHERE user_id = ? LIMIT ? OFFSET ?"
  /\ fst (list_query (mkUser 7) (mkQuery None None None None)) =
       "SELECT * FROM tasks WHERE user_id = ? ORDER BY created_at DESC LIMIT ? OFFSET ?"
  /\ get_tasks (mkUser 7) (mkQuery None None None (Some "title:desc"))
       sample_world =
     (mkResponse 500
        (ErrorBody 500 "Internal Server Error" "Failed to fetch tasks"),
      mkWorld sample_tasks 4 0 []
        [("SELECT COUNT(*) as total FROM tasks WHERE user_id = ?", [JNum 7]);
         ("SELECT * FROM tasks WHERE user_id = ? ORDER BY title DESC LIMIT ? OFFSET ?",
          [JNum 7; JNum 10; JNum 0])]
        "2026-11-01T17:54:00.000Z").
Proof. repeat split. Qed.

Example direction_of_examples :
  direction_of "title:desc" = Store.DESC /\ direction_of "title" = Store.ASC
  /\ direction_of "title:DESC" = Store.ASC /\ direction_of "title:" = Store.ASC
  /\ direction_of "title:asc" = Store.ASC
  /\ direction_of "title:desc:x" = Store.DESC.
Proof. repeat split. Qed.

(** ** C6: pagination *)

Lemma parseInt_or_falsy (p : option string) (d : Z) :
  parseInt p = NaN \/ parseInt p = Num 0 -> parseInt_or p d = Num d.
Proof. unfold parseInt_or. intros [-> | ->]; reflexivity. Qed.

Lemma get_tasks_window (u : user) (q q' : query_string) :
  list_window q = list_window q' -> q_status q = q_status q' ->
  q_sort q = q_sort q' ->
  get_tasks u q = get_tasks u q'.
Proof.
  intros Hw Hs Ho.
  unfold get_tasks, list_query, count_query. rewrite Hw, Hs, Ho. reflexivity.
Qed.

(** Below 2^53 the arithmetic of numbers is the arithmetic of integers, and
    a number is written as it is. *)
Lemma round_double_exact (n : Z) : Z.abs n < 2 ^ 53 -> round_double n = Num n.
Proof.
  intros H. unfold round_double. apply Z.ltb_lt in H. rewrite H. reflexivity.
Qed.

Lemma to_decimal_exact (n : Z) : Z.abs n < 2 ^ 53 -> to_decimal n = n.
Proof.
  intros H. unfold to_decimal. apply Z.ltb_lt in H. rewrite H. reflexivity.
Qed.

Lemma offset_exact (p l : Z) :
  Z.abs (p - 1) < 2 ^ 53 -> Z.abs ((p - 1) * l) < 2 ^ 53 ->
  number_mul (number_sub (Num p) (Num 1)) (Num l) = Num ((p - 1) * l).
Proof.
  intros H1 H2. unfold number_sub. rewrite (round_double_exact _ H1).
  unfold number_mul. apply round_double_exact, H2.
Qed.

(** C6 (as amended): a page value that [parseInt] reads as NaN or as 0 (such
    as "abc", "0", or no value) gives the very behaviour of [page=1], the same
    statements sent and the same answer, and a limit value read as NaN or as
    0 the very behaviour of [limit=10]; the row query ends in
    [LIMIT ? OFFSET ?] bound to the limit and to [(page - 1) * limit], a
    product of JavaScript numbers that is the product of the integers as
    long as all stays below 2^53; and no value of the two ever gets the
    request rejected as invalid: the answer never has a status from 400 to
    499.  (A negative value is kept as it was read.) *)
Theorem get_tasks_pagination (u : user) (q : query_string) (w : world) :
  (forall p,
      parseInt p = NaN \/ parseInt p = Num 0 ->
      get_tasks u (mkQuery p (q_limit q) (q_status q) (q_sort q)) w =
      get_tasks u (mkQuery (Some "1") (q_limit q) (q_status q) (q_sort q)) w)
  /\ (forall l,
        parseInt l = NaN \/ parseInt l = Num 0 ->
        get_tasks u (mkQuery (q_page q) l (q_status q) (q_sort q)) w =
        get_tasks u (mkQuery (q_page q) (Some "10") (q_status q) (q_sort q)) w)
  /\ (exists text params,
        list_query u q =
        (text ++ " LIMIT ? OFFSET ?",
         (params
          ++ [num_param (parseInt_or (q_limit q) 10);
              num_param
                (number_mul (number_sub (parseInt_or (q_page q) 1) (Num 1))
                   (parseInt_or (q_limit q) 10))])%list))
  /\ (forall page limit,
        parseInt_or (q_page q) 1 = Num page ->
        parseInt_or (q_limit q) 10 = Num limit ->
        Z.abs (page - 1) < 2 ^ 53 -> Z.abs limit < 2 ^ 53 ->
        Z.abs ((page - 1) * limit) < 2 ^ 53 ->
        exists text params,
          list_query u q =
          (text ++ " LIMIT ? OFFSET ?",
           (params ++ [JNum limit; JNum ((page - 1) * limit)])%list))
  /\ ~ (400 <= http_status (fst (get_tasks u q w)) < 500).
Proof.
  assert (Hq : exists text params,
             list_query u q =
             (text ++ " LIMIT ? OFFSET ?",
              (params
               ++ [num_param (parseInt_or (q_limit q) 10);
                   num_param
                     (number_mul
                        (number_sub (parseInt_or (q_page q) 1) (Num 1))
                        (parseInt_or (q_limit q) 10))])%list)).
  { unfold list_query, list_window.
    destruct (truthy (of_param (q_status q))
              && includes statuses (of_param (q_status q)));
      eexists; eexists; reflexivity. }
  split; [|split; [|split; [|split]]].
  - intros p Hp. rewrite (get_tasks_window u _
      (mkQuery (Some "1") (q_limit q) (q_status q) (q_sort q)));
      try reflexivity.
    unfold list_window. cbn [q_page q_limit].
    rewrite (parseInt_or_falsy p 1 Hp). reflexivity.
  - intros l Hl. rewrite (get_tasks_window u _
      (mkQuery (q_page q) (Some "10") (q_status q) (q_sort q)));
      try reflexivity.
    unfold list_window. cbn [q_page q_limit].
    rewrite (parseInt_or_falsy l 10 Hl). reflexivity.
  - exact Hq.
  - intros page limit Hp Hl H1 Hlim H2. destruct Hq as [text [params Hq]].
    exists text, params. rewrite Hq, Hp, Hl, (offset_exact _ _ H1 H2).
    cbn [num_param].
    rewrite (to_decimal_exact _ Hlim), (to_decimal_exact _ H2). reflexivity.
  - rewrite get_tasks_response. cbn. lia.
Qed.

Lemma get_tasks_pagination_witness :
  get_tasks (mkUser 7) (mkQuery (Some "abc") None None None) sample_world =
  get_tasks (mkUser 7) (mkQuery (Some "1") None None None) sample_world
  /\ get_tasks (mkUser 7) (mkQuery (Some "0") None None None) sample_world =
     get_tasks (mkUser 7) (mkQuery (Some "1") None None None) sample_world
  /\ get_tasks (mkUser 7) (mkQuery None (Some "0") None None) sample_world =
     get_tasks (mkUser 7) (mkQuery None (Some "10") None None) sample_world
  /\ (exists text params,
        list_query (mkUser 7) (mkQuery (Some "3") (Some "20") None None) =
        (text ++ " LIMIT ? OFFSET ?", (params ++ [JNum 20; JNum 40])%list)).
Proof.
  split; [|split; [|split]].
  - exact (proj1 (get_tasks_pagination (mkUser 7)
                    (mkQuery None None None None) sample_world)
             (Some "abc") (or_introl eq_refl)).
  - exact (proj1 (get_tasks_pagination (mkUser 7)
                    (mkQuery None None None None) sample_world)
             (Some "0") (or_intror eq_refl)).
  - exact (proj1 (proj2 (get_tasks_pagination (mkUser 7)
                           (mkQuery None None None None) sample_world))
             (Some "0") (or_intror eq_refl)).
  - exact (proj1 (proj2 (proj2 (proj2
             (get_tasks_pagination (mkUser 7)
                (mkQuery (Some "3") (Some "20") None None) sample_world))))
             3 20 eq_refl eq_refl ltac:(vm_compute; reflexivity)
             ltac:(vm_compute; reflexivity) ltac:(vm_compute; reflexivity)).
Defined.

(** C6 as stated fails on a negative value: [page=-5] is kept as page -5 and
    the row query is bound to offset -60, where [page=1] binds offset 0; the
    store rejects the former statement, and the request ends with the
    connection still held, where [page=1] ends with it given back.  Likewise
    [limit=-5] is not [limit=10]. *)
Lemma get_tasks_negative_page_counterexample :
  list_window (mkQuery (Some "-5") None None None)
    = (Num (-5), Num 10, Num (-60))
  /\ list_window (mkQuery (Some "1") None None None) = (Num 1, Num 10, Num 0)
  /\ snd (list_query (mkUser 7) (mkQuery (Some "-5") None None None)) =
       [JNum 7; JNum 10; JNum (-60)]
  /\ snd (list_query (mkUser 7) (mkQuery (Some "1") None None None)) =
       [JNum 7; JNum 10; JNum 0]
  /\ snd (get_tasks (mkUser 7) (mkQuery (Some "-5") None None None)
            sample_world) =
     mkWorld sample_tasks 4 1 []
       [("SELECT COUNT(*) as total FROM tasks WHERE user_id = ?", [JNum 7]);
        ("SELECT * FROM tasks WHERE user_id = ? ORDER BY created_at DESC LIMIT ? OFFSET ?",
         [JNum 7; JNum 10; JNum (-60)])]
       "2026-11-01T17:54:00.000Z"
  /\ snd (get_tasks (mkUser 7) (mkQuery (Some "1") None None None)
            sample_world) =
     mkWorld sample_tasks 4 0 []
       [("SELECT COUNT(*) as total FROM tasks WHERE user_id = ?", [JNum 7]);
        ("SELECT * FROM tasks WHERE user_id = ? ORDER BY created_at DESC LIMIT ? OFFSET ?",
         [JNum 7; JNum 10; JNum 0])]
       "2026-11-01T17:54:00.000Z"
  /\ list_window (mkQuery None (Some "-5") None None) = (Num 1, Num (-5), Num 0)
  /\ list_window (mkQuery None (Some "10") None None) = (Num 1, Num 10, Num 0)
  /\ snd (list_query (mkUser 7) (mkQuery None (Some "-5") None None)) =
       [JNum 7; JNum (-5); JNum 0]
  /\ snd (list_query (mkUser 7) (mkQuery None (Some "10") None None)) =
       [JNum 7; JNum 10; JNum 0].
Proof. repeat split. Qed.

(** ** PATCH and DELETE *)

(** PATCH, with the statement it builds named: past the validations, what is
    left is [patch_tail]. *)
Lemma patch_task_unfold (u : user) (tid : string) (b : task_body) :
  patch_task u tid b =
  try_catch
    (getConnection ;;
     taskResult <- conn_query select_owned [task_id tid; JNum (uid u)] ;;
     if no_rows taskResult then release ;; ret not_found
     else
       t <- now ;;
       if defined (b_title b) && negb (has_properties (b_title b)) then throw
       else if defined (b_title b) && lt_1 (length_of (b_title b)) then
         release ;; ret (bad_request "Title must be at least 1 character long")
       else if defined (b_status b) && negb (includes statuses (b_status b))
       then release ;; ret (bad_request "Invalid status")
       else if negb (defined (b_title b) || defined (b_description b)
                     || defined (b_status b))
       then release ;; ret (bad_request "No fields to update provided")
       else patch_tail b t (task_id tid))
    (internal_error "Failed to update task").
Proof.
  unfold patch_task, patch_tail, update_query, task_id, select_owned,
    select_view.
  destruct (defined (b_title b)), (defined (b_description b)),
    (defined (b_status b)); reflexivity.
Qed.

Lemma has_id_iff (i : jsval) (r : task) :
  Store.has_id i r = true <-> i = JNum (id r).
Proof.
  unfold Store.has_id, jsval_eqb. destruct i; split; try discriminate.
  - intros H. apply Z.eqb_eq in H. now subst.
  - intros [= ->]. apply Z.eqb_refl.
Qed.

Lemma owned_by_iff (u : user) (r : task) :
  Store.owned_by (JNum (uid u)) r = true <-> user_id r = uid u.
Proof. unfold Store.owned_by, jsval_eqb. apply Z.eqb_eq. Qed.

Lemma has_id_patched (b : task_body) (t : string) (i j : jsval) (r : task) :
  Store.has_id j (patched b t i r) = Store.has_id j r.
Proof.
  unfold patched. destruct (Store.has_id i r); reflexivity.
Qed.

Lemma filter_has_id_patched (b : task_body) (t : string) (i : jsval)
  (rows : list task) :
  filter (Store.has_id i) (map (patched b t i) rows) =
  map (patched b t i) (filter (Store.has_id i) rows).
Proof.
  induction rows as [|r rows IH]; [reflexivity|].
  simpl. rewrite has_id_patched, IH.
  destruct (Store.has_id i r); reflexivity.
Qed.

Lemma bare_word_num (i : jsval) (r : task) :
  i = JNum (id r) -> Store.bare_word i = false.
Proof. intros ->. reflexivity. Qed.

(** When the ownership check finds a row, the re-read after the UPDATE finds
    one too. *)
Lemma reread_no_rows (u : user) (b : task_body) (t : string) (i : jsval)
  (rows : list task) :
  visible u i rows <> [] ->
  no_rows
    (Store.Views
       (map Store.view
          (filter (Store.has_id i) (map (patched b t i) rows)))) = false.
Proof.
  intros H. rewrite filter_has_id_patched.
  destruct (filter (Store.has_id i) rows) as [|r rs] eqn:E; [|reflexivity].
  exfalso. apply H. clear H. unfold visible.
  induction rows as [|x rows IH]; [reflexivity|].
  simpl in E |- *. destruct (Store.has_id i x); [discriminate|].
  simpl. apply IH, E.
Qed.

(** PATCH in a world whose store answers every statement it accepts. *)
Lemma patch_task_healthy (u : user) (tid : string) (b : task_body)
  (w : world) :
  faults w = [] ->
  patch_task u tid b w =
  let i := task_id tid in
  let w1 := logged select_owned [i; JNum (uid u)] w in
  if Store.bare_word i then
    (internal_error "Failed to update task", set_held (S (held w)) w1)
  else
    match visible u i (table w) with
    | [] => (not_found, w1)
    | _ :: _ =>
        if defined (b_title b) && negb (has_properties (b_title b)) then
          (internal_error "Failed to update task", set_held (S (held w)) w1)
        else if defined (b_title b) && lt_1 (length_of (b_title b)) then
          (bad_request "Title must be at least 1 character long", w1)
        else if defined (b_status b) && negb (includes statuses (b_status b))
        then (bad_request "Invalid status", w1)
        else if negb (defined (b_title b) || defined (b_description b)
                      || defined (b_status b))
        then (bad_request "No fields to update provided", w1)
        else
          let t := now_text w in
          (res_json (TaskBody None),
           set_db (map (patched b t i) (table w), next_id w)
             (logged select_view [i]
                (logged (fst (update_query b t i)) (snd (update_query b t i))
                   w1)))
    end.
Proof.
  intros H. destruct w as [tb nx h fs lg ck]. cbn [faults] in H. subst fs.
  rewrite patch_task_unfold. cbv zeta. unfold visible, now_text.
  generalize (task_id tid). intros i.
  run_handler.
  destruct (Store.bare_word i) eqn:En; [reflexivity|]. world_simpl.
  destruct (filter _ tb) as [|r rs] eqn:Ev; cbn [no_rows]; world_simpl;
    [reflexivity|].
  destruct (defined (b_title b) && negb (has_properties (b_title b)));
    [reflexivity|].
  destruct (defined (b_title b) && lt_1 (length_of (b_title b)));
    [reflexivity|].
  destruct (defined (b_status b) && negb (includes statuses (b_status b)));
    [reflexivity|].
  destruct (negb (defined (b_title b) || defined (b_description b)
                  || defined (b_status b))); [reflexivity|].
  unfold patch_tail, index_0_of_first.
  repeat (progress (run_handler; rewrite ?En; world_simpl)).
  rewrite (reread_no_rows u)
    by (unfold visible; rewrite Ev; discriminate).
  reflexivity.
Qed.

(** DELETE in a world whose store answers every statement it accepts. *)
Lemma delete_task_healthy (u : user) (tid : string) (w : world) :
  faults w = [] ->
  delete_task u tid w =
  let i := task_id tid in
  let w1 := logged select_owned [i; JNum (uid u)] w in
  if Store.bare_word i then
    (internal_error "Failed to delete task", set_held (S (held w)) w1)
  else
    match visible u i (table w) with
    | [] => (not_found, w1)
    | _ :: _ =>
        (res_json (MessageBody "Task deleted successfully"),
         set_db (filter (fun r => negb (Store.has_id i r)) (table w), next_id w)
           (logged delete_by_id [i] w1))
    end.
Proof.
  intros H. destruct w as [tb nx h fs lg ck]. cbn [faults] in H. subst fs.
  unfold delete_task, visible. cbv zeta. fold (task_id tid).
  fold select_owned. fold delete_by_id.
  generalize (task_id tid). intros i.
  run_handler.
  destruct (Store.bare_word i) eqn:En; [reflexivity|]. world_simpl.
  destruct (filter _ tb) as [|r rs] eqn:Ev; cbn [no_rows]; world_simpl;
    [reflexivity|].
  run_handler. rewrite En. reflexivity.
Qed.

(** POST: the two validations come before anything is acquired or sent; past
    them, in a world whose store answers, the row is inserted and the
    response is built from the submitted values. *)
Lemma post_tasks_healthy (u : user) (b : task_body) (w : world) :
  faults w = [] ->
  post_tasks u b w =
  if negb (truthy (b_title b)) || lt_1 (length_of (b_title b)) then
    (bad_request "Title is required and must be at least 1 character long", w)
  else if truthy (b_status b) && negb (includes statuses (b_status b)) then
    (bad_request "Status must be pending, in_progress, or completed", w)
  else
    (res_status_json 201
       (CreatedBody true "Task created successfully"
          (if next_id w =? 0 then None else Some (next_id w))
          (b_title b) (js_or (b_description b) JNull)
          (js_or (b_status b) (JStr "pending"))),
     set_db ((table w ++ [inserted u b (now_text w) (next_id w)])%list,
             next_id w + 1)
       (logged insert_task (insert_params u b (now_text w)) w)).
Proof.
  intros H. unfold post_tasks.
  destruct (negb (truthy (b_title b)) || lt_1 (length_of (b_title b)));
    [reflexivity|].
  destruct (truthy (b_status b) && negb (includes statuses (b_status b)));
    [reflexivity|].
  destruct w as [tb nx h fs lg ck]. cbn [faults] in H. subst fs.
  run_handler.
  change "INSERT INTO tasks (title, description, status, user_id, created_at, updated_at) VALUES (?, ?, ?, ?, ?, ?)"
    with (Store.render Store.InsertTask).
  rewrite exec_render. unfold now_text, insert_params, inserted.
  cbn [clock truthy Store.run]. world_simpl.
  destruct (nx =? 0); reflexivity.
Qed.

Lemma post_tasks_invalid (u : user) (b : task_body) (w : world) :
  (negb (truthy (b_title b)) || lt_1 (length_of (b_title b)) = true ->
   post_tasks u b w =
   (bad_request "Title is required and must be at least 1 character long", w))
  /\ (negb (truthy (b_title b)) || lt_1 (length_of (b_title b)) = false ->
      truthy (b_status b) && negb (includes statuses (b_status b)) = true ->
      post_tasks u b w =
      (bad_request "Status must be pending, in_progress, or completed", w)).
Proof.
  unfold post_tasks. split.
  - intros ->. reflexivity.
  - intros -> ->. reflexivity.
Qed.

Lemma visible_nil (u : user) (i : jsval) (rows : list task) :
  (forall r, In r rows -> i = JNum (id r) -> user_id r <> uid u) ->
  visible u i rows = [].
Proof.
  intros H. unfold visible. induction rows as [|r rows IH]; [reflexivity|].
  simpl. destruct (Store.has_id i r && Store.owned_by (JNum (uid u)) r) eqn:E.
  - apply andb_prop in E as [E1 E2].
    apply has_id_iff in E1. apply owned_by_iff in E2.
    exfalso. apply (H r); [now left|exact E1|exact E2].
  - apply IH. intros r' Hr'. apply H. now right.
Qed.

(** A request for a task the requester cannot see stops at the ownership
    check, whatever the fault plan: it is answered 404 when the store answers
    the check, and 500 when the check faults or the store rejects it; it
    writes nothing. *)
Lemma patch_task_invisible (u : user) (tid : string) (b : task_body)
  (w : world) :
  visible u (task_id tid) (table w) = [] ->
  fst (patch_task u tid b w) =
    (if faulted 2 w || Store.bare_word (task_id tid)
     then internal_error "Failed to update task"
     else not_found)
  /\ table (snd (patch_task u tid b w)) = table w
  /\ (faulted 2 w || Store.bare_word (task_id tid) = false ->
      held (snd (patch_task u tid b w)) = held w).
Proof.
  intros V. destruct w as [tb nx h fs lg ck]. cbn [table] in V.
  rewrite patch_task_unfold. unfold visible in V. unfold faulted.
  revert V. generalize (task_id tid). intros i V.
  destruct fs as [|[] [|[] fs]]; run_handler;
    try (destruct (Store.bare_word i) eqn:En);
    world_simpl; try rewrite V; cbn [no_rows];
    world_simpl; repeat split; discriminate.
Qed.

Lemma delete_task_invisible (u : user) (tid : string) (w : world) :
  visible u (task_id tid) (table w) = [] ->
  fst (delete_task u tid w) =
    (if faulted 2 w || Store.bare_word (task_id tid)
     then internal_error "Failed to delete task"
     else not_found)
  /\ table (snd (delete_task u tid w)) = table w
  /\ (faulted 2 w || Store.bare_word (task_id tid) = false ->
      held (snd (delete_task u tid w)) = held w).
Proof.
  intros V. destruct w as [tb nx h fs lg ck]. cbn [table] in V.
  unfold delete_task. fold (task_id tid). fold select_owned.
  fold delete_by_id. unfold visible in V. unfold faulted.
  revert V. generalize (task_id tid). intros i V.
  destruct fs as [|[] [|[] fs]]; run_handler;
    try (destruct (Store.bare_word i) eqn:En);
    world_simpl; try rewrite V; cbn [no_rows];
    world_simpl; repeat split; discriminate.
Qed.

(** C2 (as amended): take a task id that no task has in one world, and that
    in another world is the id of no task of the requester (a task of that id
    that exists there belongs to another user).  PATCH (whatever its body) is
    answered in the two worlds by the same response, status and body, and so
    is DELETE, under every fault plan of the store and for every task id, a
    number or not.  When the id is one that [parseInt] reads as a number and
    the store answers the acquisition and the ownership check, that response
    is the 404 "Task not found or you do not have permission", the same for
    PATCH and DELETE, and the connection is released.  Nothing is written. *)
Theorem patch_delete_not_found_uniform (u : user) (taskId : string)
  (b : task_body) (w1 w2 : world) :
  (forall r, In r (table w1) -> task_id taskId <> JNum (id r)) ->
  (forall r, In r (table w2) -> task_id taskId = JNum (id r) ->
             user_id r <> uid u) ->
  faults w1 = faults w2 ->
  fst (patch_task u taskId b w1) = fst (patch_task u taskId b w2)
  /\ fst (delete_task u taskId w1) = fst (delete_task u taskId w2)
  /\ (forall n,
        task_id taskId = JNum n -> faulted 2 w1 = false ->
        fst (patch_task u taskId b w1) =
          mkResponse 404
            (ErrorBody 404 "Not Found"
               "Task not found or you do not have permission")
        /\ fst (patch_task u taskId b w2) =
             mkResponse 404
               (ErrorBody 404 "Not Found"
                  "Task not found or you do not have permission")
        /\ fst (delete_task u taskId w1) =
             mkResponse 404
               (ErrorBody 404 "Not Found"
                  "Task not found or you do not have permission")
        /\ fst (delete_task u taskId w2) =
             mkResponse 404
               (ErrorBody 404 "Not Found"
                  "Task not found or you do not have permission")
        /\ held (snd (patch_task u taskId b w2)) = held w2
        /\ held (snd (delete_task u taskId w2)) = held w2)
  /\ table (snd (patch_task u taskId b w2)) = table w2
  /\ table (snd (delete_task u taskId w2)) = table w2.
Proof.
  intros Habsent Hother F.
  assert (V1 : visible u (task_id taskId) (table w1) = []).
  { apply visible_nil. intros r Hr Hi. exfalso. exact (Habsent r Hr Hi). }
  assert (V2 : visible u (task_id taskId) (table w2) = [])
    by (apply visible_nil; exact Hother).
  destruct (patch_task_invisible u taskId b w1 V1) as [P1 [_ _]].
  destruct (patch_task_invisible u taskId b w2 V2) as [P2 [PT2 PH2]].
  destruct (delete_task_invisible u taskId w1 V1) as [D1 [_ _]].
  destruct (delete_task_invisible u taskId w2 V2) as [D2 [DT2 DH2]].
  assert (F2 : faulted 2 w2 = faulted 2 w1) by (unfold faulted; now rewrite F).
  rewrite F2 in P2, D2, PH2, DH2.
  split; [congruence|]. split; [congruence|].
  split; [|split; assumption].
  intros n Hn H. rewrite H, Hn in P1, P2, D1, D2, PH2, DH2.
  cbn [orb Store.bare_word] in P1, P2, D1, D2, PH2, DH2.
  repeat split; auto.
Qed.

Lemma patch_delete_not_found_uniform_witness :
  fst (patch_task (mkUser 7) "3" (mkBody (JStr "mine") JUndefined JUndefined)
         (mkWorld [] 1 0 [] [] "2026-11-01T17:54:00.000Z")) =
    mkResponse 404
      (ErrorBody 404 "Not Found"
         "Task not found or you do not have permission")
  /\ fst (patch_task (mkUser 7) "3"
            (mkBody (JStr "mine") JUndefined JUndefined)
            (mkWorld [] 1 0 [] [] "2026-11-01T17:54:00.000Z")) =
     fst (patch_task (mkUser 7) "3"
            (mkBody (JStr "mine") JUndefined JUndefined) sample_world)
  /\ fst (delete_task (mkUser 7) "abc"
            (mkWorld [] 1 0 [] [] "2026-11-01T17:54:00.000Z")) =
     fst (delete_task (mkUser 7) "abc" sample_world).
Proof.
  assert (H3 : forall r, In r (table sample_world) ->
                         task_id "3" = JNum (id r) -> user_id r <> uid (mkUser 7)).
  { intros r [<-|[<-|[<-|[]]]]; simpl; intros H; try discriminate H.
    intros H'. discriminate H'. }
  assert (H4 : forall r, In r (table sample_world) ->
                         task_id "abc" = JNum (id r) ->
                         user_id r <> uid (mkUser 7)).
  { intros r _ H. discriminate H. }
  destruct (patch_delete_not_found_uniform (mkUser 7) "3"
              (mkBody (JStr "mine") JUndefined JUndefined)
              (mkWorld [] 1 0 [] [] "2026-11-01T17:54:00.000Z") sample_world
              (fun r (H : In r []) => match H with end) H3 eq_refl)
    as [Ha [_ [Hb _]]].
  split; [exact (proj1 (Hb 3 eq_refl eq_refl))|split; [exact Ha|]].
  exact (proj1 (proj2
           (patch_delete_not_found_uniform (mkUser 7) "abc"
              (mkBody (JStr "mine") JUndefined JUndefined)
              (mkWorld [] 1 0 [] [] "2026-11-01T17:54:00.000Z") sample_world
              (fun r (H : In r []) => match H with end)
              H4 eq_refl))).
Defined.

(** C2 as stated fails on a task id that [parseInt] does not read as a
    number.  No task has the id "abc"; the ownership check binds NaN, the
    store rejects the statement, and PATCH and DELETE are answered 500, not
    404, with the connection still held. *)
Lemma patch_delete_nan_id_counterexample :
  task_id "abc" = JNaN
  /\ (forall r, In r (table sample_world) -> task_id "abc" <> JNum (id r))
  /\ patch_task (mkUser 7) "abc" (mkBody (JStr "t") JUndefined JUndefined)
       sample_world =
     (mkResponse 500
        (ErrorBody 500 "Internal Server Error" "Failed to update task"),
      mkWorld sample_tasks 4 1 []
        [("SELECT * FROM tasks WHERE id = ? AND user_id = ?",
          [JNaN; JNum 7])]
        "2026-11-01T17:54:00.000Z")
  /\ delete_task (mkUser 7) "abc" sample_world =
     (mkResponse 500
        (ErrorBody 500 "Internal Server Error" "Failed to delete task"),
      mkWorld sample_tasks 4 1 []
        [("SELECT * FROM tasks WHERE id = ? AND user_id = ?",
          [JNaN; JNum 7])]
        "2026-11-01T17:54:00.000Z").
Proof. repeat split. intros r _ H. discriminate H. Qed.

(** ** C7: partial update *)

Lemma visible_cons (u : user) (i : jsval) (rows : list task) (r : task) :
  In r rows -> i = JNum (id r) -> user_id r = uid u ->
  exists r' rs, visible u i rows = r' :: rs.
Proof.
  intros Hin Hi Hu.
  assert (H : In r (visible u i rows)).
  { apply filter_In. split; [exact Hin|].
    apply andb_true_intro. split; [now apply has_id_iff|now apply owned_by_iff]. }
  destruct (visible u i rows) as [|r' rs]; [destruct H|].
  now exists r', rs.
Qed.

Lemma patched_updated_at (b : task_body) (t : string) (i : jsval)
  (rows : list task) (r' : task) :
  In r' (map (patched b t i) rows) -> i = JNum (id r') -> updated_at r' = t.
Proof.
  intros Hin Hi. apply in_map_iff in Hin as [r [<- _]].
  unfold patched in *. destruct (Store.has_id i r) eqn:E; [reflexivity|].
  apply has_id_iff in Hi. congruence.
Qed.

(** C7: a PATCH on a task the requester owns, in a world whose store answers.
    The table after the request is the table before it, or the table before it
    with, in the rows of that id and in no other, the fields present in the
    body written, [updated_at] set to the time of the request, and every other
    column as it was (see [patched]).  When the answer is 200 it is the
    latter, with [updated_at] refreshed whichever fields were supplied; when
    it is not 200 nothing was written.  A body carrying only a description is
    answered 200 and changes the description and [updated_at] only.  A body
    with no field at all is answered 400 "No fields to update provided" and
    leaves the table as it was. *)
Theorem patch_task_partial_update (u : user) (taskId : string)
  (b : task_body) (w : world) :
  faults w = [] ->
  (exists r, In r (table w) /\ task_id taskId = JNum (id r)
             /\ user_id r = uid u) ->
  (table (snd (patch_task u taskId b w)) = table w
   \/ table (snd (patch_task u taskId b w)) =
      map (patched b (now_text w) (task_id taskId)) (table w))
  /\ (http_status (fst (patch_task u taskId b w)) = 200 ->
      table (snd (patch_task u taskId b w)) =
        map (patched b (now_text w) (task_id taskId)) (table w)
      /\ (forall r', In r' (table (snd (patch_task u taskId b w))) ->
                     task_id taskId = JNum (id r') ->
                     updated_at r' = now_text w))
  /\ (http_status (fst (patch_task u taskId b w)) <> 200 ->
      table (snd (patch_task u taskId b w)) = table w)
  /\ (b_title b = JUndefined -> b_status b = JUndefined ->
      b_description b <> JUndefined ->
      http_status (fst (patch_task u taskId b w)) = 200
      /\ table (snd (patch_task u taskId b w)) =
         map (fun r =>
                if Store.has_id (task_id taskId) r
                then mkTask (id r) (title r) (b_description b) (status r)
                       (user_id r) (created_at r) (now_text w)
                else r) (table w))
  /\ (b_title b = JUndefined -> b_description b = JUndefined ->
      b_status b = JUndefined ->
      fst (patch_task u taskId b w) =
        mkResponse 400
          (ErrorBody 400 "Bad Request" "No fields to update provided")
      /\ table (snd (patch_task u taskId b w)) = table w).
Proof.
  intros F [r [Hin [Hi Hu]]].
  destruct (visible_cons u _ _ r Hin Hi Hu) as [r0 [rs V]].
  rewrite (patch_task_healthy u taskId b w F). cbv zeta.
  rewrite (bare_word_num _ r Hi), V.
  split; [|split; [|split; [|split]]].
  - destruct (defined (b_title b) && negb (has_properties (b_title b)));
      [left; reflexivity|].
    destruct (defined (b_title b) && lt_1 (length_of (b_title b)));
      [left; reflexivity|].
    destruct (defined (b_status b) && negb (includes statuses (b_status b)));
      [left; reflexivity|].
    destruct (negb (defined (b_title b) || defined (b_description b)
                    || defined (b_status b)));
      [left|right]; reflexivity.
  - destruct (defined (b_title b) && negb (has_properties (b_title b)));
      [discriminate|].
    destruct (defined (b_title b) && lt_1 (length_of (b_title b)));
      [discriminate|].
    destruct (defined (b_status b) && negb (includes statuses (b_status b)));
      [discriminate|].
    destruct (negb (defined (b_title b) || defined (b_description b)
                    || defined (b_status b)));
      [discriminate|].
    intros _. split; [reflexivity|].
    cbn [snd set_db table fst]. intros r' Hr' Hi'.
    exact (patched_updated_at _ _ _ _ _ Hr' Hi').
  - destruct (defined (b_title b) && negb (has_properties (b_title b)));
      [reflexivity|].
    destruct (defined (b_title b) && lt_1 (length_of (b_title b)));
      [reflexivity|].
    destruct (defined (b_status b) && negb (includes statuses (b_status b)));
      [reflexivity|].
    destruct (negb (defined (b_title b) || defined (b_description b)
                    || defined (b_status b)));
      [reflexivity|].
    intros H. exfalso. apply H. reflexivity.
  - intros Ht Hs Hd. unfold patched. rewrite Ht, Hs.
    destruct (b_description b); [contradiction| | | | |]; split; reflexivity.
  - intros -> -> ->. split; reflexivity.
Qed.

Lemma patch_task_partial_update_witness :
  table (snd (patch_task (mkUser 7) "1"
                (mkBody JUndefined (JStr "new text") JUndefined)
                sample_world)) =
  [mkTask 1 (JStr "b") (JStr "new text") (JStr "pending") 7
     "2026-01-01 00:00:00" "2026-11-01 17:54:00";
   mkTask 2 (JStr "a") JNull (JStr "completed") 7
     "2026-01-02 00:00:00" "2026-01-02 00:00:00";
   mkTask 3 (JStr "c") JNull (JStr "pending") 8
     "2026-01-03 00:00:00" "2026-01-03 00:00:00"]
  /\ fst (patch_task (mkUser 7) "1" (mkBody JUndefined JUndefined JUndefined)
            sample_world) =
       mkResponse 400
         (ErrorBody 400 "Bad Request" "No fields to update provided").
Proof.
  assert (H : unit -> exists r, In r (table sample_world)
                         /\ task_id "1" = JNum (id r)
                         /\ user_id r = uid (mkUser 7)).
  { intros _.
    exists (mkTask 1 (JStr "b") JNull (JStr "pending") 7
              "2026-01-01 00:00:00" "2026-01-01 00:00:00").
    split; [left; reflexivity|split; reflexivity]. }
  split.
  - destruct (patch_task_partial_update (mkUser 7) "1"
                (mkBody JUndefined (JStr "new text") JUndefined) sample_world
                eq_refl (H tt)) as [_ [_ [_ [Hd _]]]].
    destruct (Hd eq_refl eq_refl ltac:(discriminate)) as [_ Ht].
    exact Ht.
  - destruct (patch_task_partial_update (mkUser 7) "1"
                (mkBody JUndefined JUndefined JUndefined) sample_world
                eq_refl (H tt)) as [_ [_ [_ [_ He]]]].
    destruct (He eq_refl eq_refl eq_refl) as [Hr _].
    exact Hr.
Defined.

(** ** C8: creation *)

Lemma truthy_length (v : jsval) : truthy v = true -> lt_1 (length_of v) = false.
Proof.
  destruct v as [| |x| |n|s]; simpl; try reflexivity.
  destruct s as [|c s]; [discriminate|]. intros _.
  apply Z.ltb_ge. cbn [String.length]. lia.
Qed.

(** C8 (as amended): a title that is missing or empty (any falsy value) is
    answered 400 and nothing is acquired, sent or inserted; with a proper
    title, a status that is a non-empty text (or any other truthy value)
    outside pending, in_progress and completed is answered 400, again with
    nothing inserted; with a proper title and no status (or a falsy one, such
    as the empty text or null), in a world whose store answers, one row is
    inserted with the title, the description or null when there is none,
    status "pending", the requester as owner and [created_at] equal to
    [updated_at]; the answer is 201 with the submitted values and the
    identifier the store assigned, and the INSERT is the only statement
    sent: the row is not read back. *)
Theorem post_tasks_validation_and_insert (u : user) (b : task_body)
  (w : world) :
  (truthy (b_title b) = false ->
   post_tasks u b w =
     (mkResponse 400
        (ErrorBody 400 "Bad Request"
           "Title is required and must be at least 1 character long"), w))
  /\ (truthy (b_title b) = true -> truthy (b_status b) = true ->
      includes statuses (b_status b) = false ->
      post_tasks u b w =
        (mkResponse 400
           (ErrorBody 400 "Bad Request"
              "Status must be pending, in_progress, or completed"), w))
  /\ (truthy (b_title b) = true -> truthy (b_status b) = false ->
      faults w = [] ->
      fst (post_tasks u b w) =
        mkResponse 201
          (CreatedBody true "Task created successfully"
             (if next_id w =? 0 then None else Some (next_id w))
             (b_title b)
             (if truthy (b_description b) then b_description b else JNull)
             (JStr "pending"))
      /\ table (snd (post_tasks u b w)) =
           (table w
            ++ [mkTask (next_id w) (b_title b)
                  (if truthy (b_description b) then b_description b
                   else JNull)
                  (JStr "pending") (uid u) (now_text w) (now_text w)])%list
      /\ log (snd (post_tasks u b w)) =
           (log w
            ++ [("INSERT INTO tasks (title, description, status, user_id, created_at, updated_at) VALUES (?, ?, ?, ?, ?, ?)",
                 [b_title b;
                  if truthy (b_description b) then b_description b else JNull;
                  JStr "pending"; JNum (uid u); JStr (now_text w);
                  JStr (now_text w)])])%list
      /\ held (snd (post_tasks u b w)) = held w).
Proof.
  split; [|split].
  - intros Ht. apply (proj1 (post_tasks_invalid u b w)).
    rewrite Ht. reflexivity.
  - intros Ht Hs Hi. apply (proj2 (post_tasks_invalid u b w)).
    + rewrite Ht, (truthy_length _ Ht). reflexivity.
    + rewrite Hs, Hi. reflexivity.
  - intros Ht Hs F. rewrite (post_tasks_healthy u b w F).
    rewrite Ht, (truthy_length _ Ht), Hs. cbn [negb orb andb].
    unfold inserted, insert_params, js_or. rewrite Hs.
    destruct w as [tb nx h fs lg ck]. repeat split.
Qed.

Lemma post_tasks_validation_and_insert_witness :
  post_tasks (mkUser 7) (mkBody (JStr "") JUndefined JUndefined) sample_world =
    (mkResponse 400
       (ErrorBody 400 "Bad Request"
          "Title is required and must be at least 1 character long"),
     sample_world)
  /\ post_tasks (mkUser 7) (mkBody (JStr "X") JUndefined (JStr "done"))
       sample_world =
       (mkResponse 400
          (ErrorBody 400 "Bad Request"
             "Status must be pending, in_progress, or completed"),
        sample_world)
  /\ fst (post_tasks (mkUser 7) (mkBody (JStr "X") JUndefined JUndefined)
            sample_world) =
       mkResponse 201
         (CreatedBody true "Task created successfully" (Some 4) (JStr "X")
            JNull (JStr "pending")).
Proof.
  split; [|split].
  - exact (proj1 (post_tasks_validation_and_insert (mkUser 7)
                    (mkBody (JStr "") JUndefined JUndefined) sample_world)
             eq_refl).
  - exact (proj1 (proj2 (post_tasks_validation_and_insert (mkUser 7)
                           (mkBody (JStr "X") JUndefined (JStr "done"))
                           sample_world))
             eq_refl eq_refl eq_refl).
  - exact (proj1 (proj2 (proj2 (post_tasks_validation_and_insert (mkUser 7)
                                  (mkBody (JStr "X") JUndefined JUndefined)
                                  sample_world))
                    eq_refl eq_refl eq_refl)).
Defined.

(** C8 as stated fails on a status that is outside the enumeration and falsy:
    with the empty text, or null, as status the request is not answered 400;
    the task is created with status "pending". *)
Lemma post_tasks_empty_status_counterexample :
  includes statuses (JStr "") = false
  /\ fst (post_tasks (mkUser 7) (mkBody (JStr "X") JUndefined (JStr ""))
            sample_world) =
       mkResponse 201
         (CreatedBody true "Task created successfully" (Some 4) (JStr "X")
            JNull (JStr "pending"))
  /\ table (snd (post_tasks (mkUser 7) (mkBody (JStr "X") JUndefined (JStr ""))
                   sample_world)) =
       (sample_tasks
        ++ [mkTask 4 (JStr "X") JNull (JStr "pending") 7
              "2026-11-01 17:54:00" "2026-11-01 17:54:00"])%list
  /\ includes statuses JNull = false
  /\ http_status
       (fst (post_tasks (mkUser 7) (mkBody (JStr "X") JUndefined JNull)
               sample_world)) = 201.
Proof. repeat split. Qed.

(** ** C9: release of the connection *)

(** C9 (evaluation at failing inputs): every world below starts with no
    connection held.  A PATCH of an own task whose title is [null] raises
    while the connection is held; a GET whose count query faults, a GET with
    [page=-5] (whose row query the store rejects), a POST whose INSERT faults
    and a DELETE whose DELETE statement faults do the same.  Each is answered
    500 and ends with the connection still held: the catch blocks do not
    release it.  The paths that end in an explicit response (success,
    400, 404) end with no connection held. *)
Theorem handlers_leak_connection_on_throw :
  (patch_task (mkUser 7) "1" (mkBody JNull JUndefined JUndefined) sample_world
   = (mkResponse 500
        (ErrorBody 500 "Internal Server Error" "Failed to update task"),
      mkWorld sample_tasks 4 1 []
        [("SELECT * FROM tasks WHERE id = ? AND user_id = ?",
          [JNum 1; JNum 7])]
        "2026-11-01T17:54:00.000Z"))
  /\ (http_status
        (fst (get_tasks (mkUser 7) (mkQuery None None None None)
                (faulty_world [false; true]))) = 500
      /\ held (snd (get_tasks (mkUser 7) (mkQuery None None None None)
                      (faulty_world [false; true]))) = 1%nat)
  /\ (http_status
        (fst (get_tasks (mkUser 7) (mkQuery (Some "-5") None None None)
                sample_world)) = 500
      /\ held (snd (get_tasks (mkUser 7) (mkQuery (Some "-5") None None None)
                      sample_world)) = 1%nat)
  /\ (http_status
        (fst (post_tasks (mkUser 7) (mkBody (JStr "X") JUndefined JUndefined)
                (faulty_world [false; true]))) = 500
      /\ held (snd (post_tasks (mkUser 7)
                      (mkBody (JStr "X") JUndefined JUndefined)
                      (faulty_world [false; true]))) = 1%nat)
  /\ (http_status
        (fst (delete_task (mkUser 7) "1" (faulty_world [false; false; true])))
      = 500
      /\ held (snd (delete_task (mkUser 7) "1"
                      (faulty_world [false; false; true]))) = 1%nat)
  /\ (held (snd (get_tasks (mkUser 7) (mkQuery None None None None)
                   sample_world)) = 0%nat
      /\ held (snd (post_tasks (mkUser 7)
                      (mkBody (JStr "X") JUndefined JUndefined)
                      sample_world)) = 0%nat
      /\ held (snd (patch_task (mkUser 7) "1"
                      (mkBody JUndefined JUndefined JUndefined)
                      sample_world)) = 0%nat
      /\ held (snd (patch_task (mkUser 7) "3"
                      (mkBody (JStr "t") JUndefined JUndefined)
                      sample_world)) = 0%nat
      /\ held (snd (delete_task (mkUser 7) "1" sample_world)) = 0%nat).
Proof. repeat split. Qed.

(** A fault, a task id that is no number, or a TypeError past the acquisition
    are the only ways a PATCH keeps the connection: in a world whose store
    answers, a PATCH under a numeric id whose title is not [null] ends with
    the connections it started with. *)
Lemma patch_task_releases (u : user) (taskId : string) (b : task_body)
  (w : world) :
  faults w = [] -> Store.bare_word (task_id taskId) = false ->
  b_title b <> JNull ->
  held (snd (patch_task u taskId b w)) = held w.
Proof.
  intros F Hn Ht. rewrite (patch_task_healthy u taskId b w F). cbv zeta.
  rewrite Hn.
  destruct (visible u (task_id taskId) (table w)); [reflexivity|].
  destruct (b_title b) eqn:E; try contradiction; cbn [defined has_properties
    negb andb];
    repeat match goal with
           | |- context [if ?c then _ else _] => destruct c
           end; reflexivity.
Qed.

(** * Further properties of the handlers *)

(** ** What a request writes, under every fault plan *)

Lemma post_tasks_table (u : user) (b : task_body) (w : world) :
  (table (snd (post_tasks u b w)) = table w
   /\ next_id (snd (post_tasks u b w)) = next_id w)
  \/ (post_accepts b = true
      /\ table (snd (post_tasks u b w)) =
           (table w ++ [inserted u b (now_text w) (next_id w)])%list
      /\ next_id (snd (post_tasks u b w)) = next_id w + 1).
Proof.
  unfold post_tasks, post_accepts.
  destruct (negb (truthy (b_title b)) || lt_1 (length_of (b_title b)));
    [left; split; reflexivity|].
  destruct (truthy (b_status b) && negb (includes statuses (b_status b)));
    [left; split; reflexivity|].
  destruct w as [tb nx h fs lg ck].
  destruct fs as [|[] [|[] fs]]; run_handler;
    try (left; split; reflexivity);
    change "INSERT INTO tasks (title, description, status, user_id, created_at, updated_at) VALUES (?, ?, ?, ?, ?, ?)"
      with (Store.render Store.InsertTask);
    rewrite exec_render; cbn [Store.run]; world_simpl;
    right; repeat split.
Qed.

(** Run a handler whose task id [i] is known, by [En], to be a number or
    not. *)
Ltac run_with En :=
  repeat (progress (run_handler; rewrite ?En; world_simpl)).

Lemma patch_task_table (u : user) (tid : string) (b : task_body)
  (w : world) :
  (table (snd (patch_task u tid b w)) = table w
   \/ (visible u (task_id tid) (table w) <> [] /\ patch_accepts b = true
       /\ table (snd (patch_task u tid b w)) =
          map (patched b (now_text w) (task_id tid)) (table w)))
  /\ next_id (snd (patch_task u tid b w)) = next_id w.
Proof.
  destruct w as [tb nx h fs lg ck].
  rewrite patch_task_unfold.
  unfold visible, patch_accepts, now_text, patch_tail, index_0_of_first.
  cbn [table next_id clock].
  generalize (task_id tid). intros i.
  destruct (Store.bare_word i) eqn:En;
    destruct fs as [|[] [|[] [|[] [|[] fs]]]]; run_with En;
    try (split; [left|]; reflexivity);
    (destruct (filter _ tb) as [|r rs] eqn:Ev; cbn [no_rows]; world_simpl;
     [split; [left|]; reflexivity|]);
    (destruct (defined (b_title b) && negb (has_properties (b_title b)));
     [split; [left|]; reflexivity|]);
    (destruct (defined (b_title b) && lt_1 (length_of (b_title b)));
     [split; [left|]; reflexivity|]);
    (destruct (defined (b_status b) && negb (includes statuses (b_status b)));
     [split; [left|]; reflexivity|]);
    (destruct (defined (b_title b) || defined (b_description b)
               || defined (b_status b)); cbn [negb andb];
     [|split; [left|]; reflexivity]);
    run_with En;
    try (split; [left|]; reflexivity);
    try (destruct (no_rows _); world_simpl);
    (split; [right; split; [discriminate|split; reflexivity]|reflexivity]).
Qed.

Lemma delete_task_table (u : user) (tid : string) (w : world) :
  (table (snd (delete_task u tid w)) = table w
   \/ (visible u (task_id tid) (table w) <> []
       /\ table (snd (delete_task u tid w)) =
          filter (fun r => negb (Store.has_id (task_id tid) r)) (table w)))
  /\ next_id (snd (delete_task u tid w)) = next_id w.
Proof.
  destruct w as [tb nx h fs lg ck].
  unfold delete_task, visible. fold (task_id tid). fold select_owned.
  fold delete_by_id. cbn [table next_id].
  generalize (task_id tid). intros i.
  destruct (Store.bare_word i) eqn:En;
    destruct fs as [|[] [|[] [|[] fs]]]; run_with En;
    try (split; [left|]; reflexivity);
    (destruct (filter _ tb) as [|r rs] eqn:Ev; cbn [no_rows]; world_simpl;
     [split; [left|]; reflexivity|]);
    run_with En;
    try (split; [left|]; reflexivity);
    (split; [right; split; [discriminate|reflexivity]|reflexivity]).
Qed.



(** ** Rows of other users, immutable columns, well-formed rows *)

Lemma NoDup_map_eq {A B : Type} (f : A -> B) (l : list A) (a b : A) :
  NoDup (map f l) -> In a l -> In b l -> f a = f b -> a = b.
Proof.
  induction l as [|x l IH]; simpl; intros Hn Ha Hb Hf; [destruct Ha|].
  inversion Hn as [|y l' Hx Hl]; subst.
  destruct Ha as [<-|Ha], Hb as [<-|Hb]; auto.
  - exfalso. apply Hx. rewrite Hf. now apply in_map.
  - exfalso. apply Hx. rewrite <- Hf. now apply in_map.
Qed.

(** With unique identifiers, once the ownership check has found a row, every
    row of that identifier is the requester's. *)
Lemma visible_owner (u : user) (i : jsval) (rows : list task) :
  NoDup (map id rows) -> visible u i rows <> [] ->
  forall r, In r rows -> Store.has_id i r = true ->
            Store.owned_by (JNum (uid u)) r = true.
Proof.
  intros Hn Hv r Hr Hi.
  destruct (visible u i rows) as [|r0 rs] eqn:E; [contradiction|].
  assert (H0 : In r0 (visible u i rows)) by (rewrite E; now left).
  apply filter_In in H0 as [Hin H0]. apply andb_prop in H0 as [Hi0 Ho0].
  apply has_id_iff in Hi, Hi0.
  assert (r = r0).
  { apply (NoDup_map_eq id rows); auto. congruence. }
  now subst.
Qed.

Lemma others_patched (u : user) (b : task_body) (t : string) (i : jsval)
  (rows : list task) :
  (forall r, In r rows -> Store.has_id i r = true ->
             Store.owned_by (JNum (uid u)) r = true) ->
  others u (map (patched b t i) rows) = others u rows.
Proof.
  unfold others. induction rows as [|r rows IH]; intros H; [reflexivity|].
  simpl. rewrite IH by (intros r' Hr'; apply H; now right).
  unfold patched at 1 2. destruct (Store.has_id i r) eqn:E; [|reflexivity].
  pose proof (H r (or_introl eq_refl) E) as Ho.
  unfold Store.owned_by in *. cbn [user_id]. rewrite Ho. reflexivity.
Qed.

Lemma others_deleted (u : user) (i : jsval) (rows : list task) :
  (forall r, In r rows -> Store.has_id i r = true ->
             Store.owned_by (JNum (uid u)) r = true) ->
  others u (filter (fun r => negb (Store.has_id i r)) rows) = others u rows.
Proof.
  unfold others. induction rows as [|r rows IH]; intros H; [reflexivity|].
  simpl. destruct (Store.has_id i r) eqn:E; simpl.
  - rewrite (H r (or_introl eq_refl) E). simpl.
    apply IH. intros r' Hr'. apply H. now right.
  - rewrite IH by (intros r' Hr'; apply H; now right). reflexivity.
Qed.

Lemma others_inserted (u : user) (b : task_body) (t : string) (n : Z)
  (rows : list task) :
  others u (rows ++ [inserted u b t n]) = others u rows.
Proof.
  unfold others. rewrite filter_app. simpl.
  unfold Store.owned_by, jsval_eqb. cbn [user_id inserted].
  rewrite Z.eqb_refl. simpl. apply app_nil_r.
Qed.

(** X2: with unique task identifiers, no POST, PATCH or DELETE of a user
    changes, removes or reorders a row of another user, whatever the task id,
    the body and the fault plan: the rows of the other users are after the
    request what they were before it. *)
Theorem requests_leave_other_users_rows (u : user) (taskId : string)
  (b : task_body) (w : world) :
  NoDup (map id (table w)) ->
  others u (table (snd (post_tasks u b w))) = others u (table w)
  /\ others u (table (snd (patch_task u taskId b w))) = others u (table w)
  /\ others u (table (snd (delete_task u taskId w))) = others u (table w).
Proof.
  intros Hn. split; [|split].
  - destruct (post_tasks_table u b w) as [[-> _]|[_ [-> _]]];
      [reflexivity|apply others_inserted].
  - destruct (patch_task_table u taskId b w) as [[->|[Hv [_ ->]]] _];
      [reflexivity|].
    apply others_patched, visible_owner; assumption.
  - destruct (delete_task_table u taskId w) as [[->|[Hv ->]] _];
      [reflexivity|].
    apply others_deleted, visible_owner; assumption.
Qed.

Lemma requests_leave_other_users_rows_witness :
  others (mkUser 7)
    (table (snd (patch_task (mkUser 7) "1"
                   (mkBody (JStr "z") JUndefined JUndefined) sample_world))) =
  others (mkUser 7) (table sample_world)
  /\ others (mkUser 7) (table (snd (delete_task (mkUser 7) "2" sample_world)))
     = others (mkUser 7) (table sample_world).
Proof.
  assert (Hn : NoDup (map id (table sample_world))).
  { simpl. repeat constructor; simpl; intuition discriminate. }
  split.
  - exact (proj1 (proj2 (requests_leave_other_users_rows (mkUser 7) "1"
                           (mkBody (JStr "z") JUndefined JUndefined)
                           sample_world Hn))).
  - exact (proj2 (proj2 (requests_leave_other_users_rows (mkUser 7) "2"
                           (mkBody (JStr "z") JUndefined JUndefined)
                           sample_world Hn))).
Defined.

Lemma map_patched_keeps (b : task_body) (t : string) (i : jsval)
  (rows : list task) :
  map id (map (patched b t i) rows) = map id rows
  /\ map user_id (map (patched b t i) rows) = map user_id rows
  /\ map created_at (map (patched b t i) rows) = map created_at rows.
Proof.
  rewrite !map_map.
  repeat split; apply map_ext; intros r; unfold patched;
    destruct (Store.has_id i r); reflexivity.
Qed.

(** X3: PATCH never changes the identifier, the owner or the creation time of
    a row, and never adds or removes one: for every requester, task id, body
    and fault plan, the columns [id], [user_id] and [created_at] of the table
    are row by row what they were, and so is the identifier counter. *)
Theorem patch_task_immutable_columns (u : user) (taskId : string)
  (b : task_body) (w : world) :
  map id (table (snd (patch_task u taskId b w))) = map id (table w)
  /\ map user_id (table (snd (patch_task u taskId b w))) =
     map user_id (table w)
  /\ map created_at (table (snd (patch_task u taskId b w))) =
     map created_at (table w)
  /\ next_id (snd (patch_task u taskId b w)) = next_id w.
Proof.
  destruct (patch_task_table u taskId b w) as [[->|[_ [_ ->]]] ->].
  - repeat split.
  - destruct (map_patched_keeps b (now_text w) (task_id taskId) (table w))
      as [H1 [H2 H3]].
    repeat split; assumption.
Qed.







(** ** PATCH and DELETE on a task of the requester *)

Lemma patch_accepts_checks (b : task_body) :
  patch_accepts b = true ->
  defined (b_title b) && negb (has_properties (b_title b)) = false
  /\ defined (b_title b) && lt_1 (length_of (b_title b)) = false
  /\ defined (b_status b) && negb (includes statuses (b_status b)) = false
  /\ negb (defined (b_title b) || defined (b_description b)
           || defined (b_status b)) = false.
Proof.
  unfold patch_accepts. intros H.
  apply andb_prop in H as [H H4]. apply andb_prop in H as [H H3].
  apply andb_prop in H as [H1 H2].
  apply negb_true_iff in H1, H2, H3. rewrite H4. auto.
Qed.

(** X5: the answer to an accepted PATCH carries no task.  With a store that
    answers, a PATCH of a task the requester owns, with a body that passes
    the validations, is answered 200 with an empty body: the handler sends
    the UPDATE, reads the row again, and then takes index 0 of the first
    row, which is [undefined].  The row itself is updated: each field
    present in the body as the body gives it, each absent field as it was,
    [updated_at] the time of the request.  Three statements are sent and the
    connection is given back. *)
Theorem patch_task_accepted_empty_body (u : user) (taskId : string)
  (b : task_body) (w : world) (r : task) :
  faults w = [] ->
  In r (table w) -> task_id taskId = JNum (id r) -> user_id r = uid u ->
  patch_accepts b = true ->
  fst (patch_task u taskId b w) = mkResponse 200 (TaskBody None)
  /\ table (snd (patch_task u taskId b w)) =
       map (patched b (now_text w) (JNum (id r))) (table w)
  /\ In (mkTask (id r)
           (if defined (b_title b) then b_title b else title r)
           (if defined (b_description b) then b_description b
            else description r)
           (if defined (b_status b) then b_status b else status r)
           (uid u) (created_at r) (now_text w))
       (table (snd (patch_task u taskId b w)))
  /\ log (snd (patch_task u taskId b w)) =
       (log w
        ++ [(select_owned, [JNum (id r); JNum (uid u)]);
            update_query b (now_text w) (JNum (id r));
            (select_view, [JNum (id r)])])%list
  /\ held (snd (patch_task u taskId b w)) = held w.
Proof.
  intros F Hr Hi Hu Ha.
  destruct (visible_cons u _ _ r Hr Hi Hu) as [r0 [rs V]].
  destruct (patch_accepts_checks b Ha) as [H1 [H2 [H3 H4]]].
  rewrite (patch_task_healthy u taskId b w F). cbv zeta.
  rewrite (bare_word_num _ r Hi), V, H1, H2, H3, H4, Hi.
  destruct w as [tb nx h fs lg ck]. world_simpl.
  split; [reflexivity|]. split; [reflexivity|]. split; [|split].
  - cbn [table] in Hr. apply in_map_iff. exists r. split; [|exact Hr].
    unfold patched. rewrite (proj2 (has_id_iff _ r) eq_refl), Hu.
    reflexivity.
  - cbn [log]. rewrite <- !app_assoc. cbn [app].
    now rewrite <- surjective_pairing.
  - reflexivity.
Qed.

Lemma patch_task_accepted_empty_body_witness :
  fst (patch_task (mkUser 7) "2" (mkBody JUndefined (JStr "d") (JStr "pending"))
         sample_world) = mkResponse 200 (TaskBody None)
  /\ In (mkTask 2 (JStr "a") (JStr "d") (JStr "pending") 7
           "2026-01-02 00:00:00" "2026-11-01 17:54:00")
       (table (snd (patch_task (mkUser 7) "2"
                      (mkBody JUndefined (JStr "d") (JStr "pending"))
                      sample_world))).
Proof.
  destruct (patch_task_accepted_empty_body (mkUser 7) "2"
              (mkBody JUndefined (JStr "d") (JStr "pending")) sample_world
              (mkTask 2 (JStr "a") JNull (JStr "completed") 7
                 "2026-01-02 00:00:00" "2026-01-02 00:00:00")
              eq_refl (or_intror (or_introl eq_refl)) eq_refl eq_refl eq_refl)
    as [H1 [_ [H2 _]]].
  split; [exact H1|exact H2].
Defined.

(** X6: what PATCH rejects, on a task the requester owns and with a store
    that answers.  An empty text as title is answered 400 "Title must be at
    least 1 character long", whatever the other fields; with the title absent
    or a non-empty text, a status that is present and not one of pending,
    in_progress and completed (the empty text and null included) is answered
    400 "Invalid status".  Either way nothing is written and the connection
    is released. *)
Theorem patch_task_rejections (u : user) (taskId : string) (b : task_body)
  (w : world) :
  faults w = [] ->
  (exists r, In r (table w) /\ task_id taskId = JNum (id r)
             /\ user_id r = uid u) ->
  (b_title b = JStr "" ->
   patch_task u taskId b w =
     (mkResponse 400
        (ErrorBody 400 "Bad Request" "Title must be at least 1 character long"),
      logged select_owned [task_id taskId; JNum (uid u)] w))
  /\ ((b_title b = JUndefined \/ exists s, b_title b = JStr s /\ s <> "") ->
      b_status b <> JUndefined -> includes statuses (b_status b) = false ->
      patch_task u taskId b w =
        (mkResponse 400 (ErrorBody 400 "Bad Request" "Invalid status"),
         logged select_owned [task_id taskId; JNum (uid u)] w)).
Proof.
  intros F [r [Hin [Hi Hu]]].
  destruct (visible_cons u _ _ r Hin Hi Hu) as [r0 [rs V]].
  rewrite (patch_task_healthy u taskId b w F). cbv zeta.
  rewrite (bare_word_num _ r Hi), V.
  split.
  - intros ->. reflexivity.
  - intros Ht Hs Hinc. rewrite Hinc.
    assert (Hd : defined (b_status b) = true)
      by (destruct (b_status b); [contradiction|reflexivity..]).
    rewrite Hd.
    destruct Ht as [->|[s [-> Hne]]]; [reflexivity|].
    cbn [defined has_properties negb andb length_of lt_1].
    destruct s as [|c s]; [contradiction|].
    replace (Z.of_nat (String.length (String c s)) <? 1) with false;
      [reflexivity|].
    symmetry. apply Z.ltb_ge. cbn [String.length]. lia.
Qed.

Lemma patch_task_rejections_witness :
  fst (patch_task (mkUser 7) "1" (mkBody (JStr "") JUndefined (JStr "bogus"))
         sample_world) =
    mkResponse 400
      (ErrorBody 400 "Bad Request" "Title must be at least 1 character long")
  /\ fst (patch_task (mkUser 7) "1" (mkBody JUndefined JUndefined (JStr ""))
            sample_world) =
       mkResponse 400 (ErrorBody 400 "Bad Request" "Invalid status").
Proof.
  assert (H : exists r, In r (table sample_world)
                        /\ task_id "1" = JNum (id r)
                        /\ user_id r = uid (mkUser 7)).
  { exists (mkTask 1 (JStr "b") JNull (JStr "pending") 7
              "2026-01-01 00:00:00" "2026-01-01 00:00:00").
    split; [left; reflexivity|split; reflexivity]. }
  split.
  - exact (f_equal fst
             (proj1 (patch_task_rejections (mkUser 7) "1"
                       (mkBody (JStr "") JUndefined (JStr "bogus"))
                       sample_world eq_refl H) eq_refl)).
  - exact (f_equal fst
             (proj2 (patch_task_rejections (mkUser 7) "1"
                       (mkBody JUndefined JUndefined (JStr ""))
                       sample_world eq_refl H)
                (or_introl eq_refl) ltac:(discriminate) eq_refl)).
Defined.

(** X7: DELETE of a task the requester owns, with a store that answers, is
    answered 200 "Task deleted successfully" and removes the rows of that
    identifier and no other row; the connection is released.  From then on
    the task is gone for its former owner: a second DELETE and any PATCH of
    the same id are answered 404, and no listing shows it. *)
Theorem delete_task_removes (u : user) (taskId : string) (w : world)
  (r : task) :
  faults w = [] ->
  In r (table w) -> task_id taskId = JNum (id r) -> user_id r = uid u ->
  fst (delete_task u taskId w) =
    mkResponse 200 (MessageBody "Task deleted successfully")
  /\ table (snd (delete_task u taskId w)) =
       filter (fun r' => negb (Store.has_id (task_id taskId) r')) (table w)
  /\ (forall r', In r' (table w) -> id r' <> id r ->
                 In r' (table (snd (delete_task u taskId w))))
  /\ held (snd (delete_task u taskId w)) = held w
  /\ fst (delete_task u taskId (snd (delete_task u taskId w))) =
       mkResponse 404
         (ErrorBody 404 "Not Found"
            "Task not found or you do not have permission")
  /\ (forall b,
        fst (patch_task u taskId b (snd (delete_task u taskId w))) =
          mkResponse 404
            (ErrorBody 404 "Not Found"
               "Task not found or you do not have permission"))
  /\ (forall q,
        Forall (fun v => v_id v <> id r)
          (response_tasks
             (fst (get_tasks u q (snd (delete_task u taskId w)))))).
Proof.
  intros F Hr Hi Hu.
  destruct (visible_cons u _ _ r Hr Hi Hu) as [r0 [rs V]].
  pose proof (delete_task_healthy u taskId w F) as E. cbv zeta in E.
  rewrite (bare_word_num _ r Hi), V in E.
  assert (Hgone : Forall (fun r' => id r' <> id r)
                    (table (snd (delete_task u taskId w)))).
  { rewrite E. cbn [snd set_db table fst]. apply Forall_forall.
    intros r' Hr'. apply filter_In in Hr' as [_ Hr'].
    apply negb_true_iff in Hr'. intros He.
    assert (H : Store.has_id (task_id taskId) r' = true)
      by (apply has_id_iff; congruence).
    congruence. }
  assert (F' : faults (snd (delete_task u taskId w)) = []).
  { rewrite E. destruct w. cbn in F |- *. exact F. }
  assert (V' : visible u (task_id taskId)
                 (table (snd (delete_task u taskId w))) = []).
  { apply visible_nil. intros r' Hr' Hi' _.
    rewrite Forall_forall in Hgone. apply (Hgone r' Hr'). congruence. }
  split; [rewrite E; reflexivity|].
  split; [rewrite E; reflexivity|].
  split.
  { intros r' Hr' Hne. rewrite E. cbn [snd set_db table fst].
    apply filter_In. split; [exact Hr'|]. apply negb_true_iff.
    destruct (Store.has_id (task_id taskId) r') eqn:Eh; [|reflexivity].
    apply has_id_iff in Eh. exfalso. apply Hne. congruence. }
  split; [rewrite E; destruct w; reflexivity|].
  split.
  { rewrite (delete_task_healthy _ _ _ F'). cbv zeta.
    rewrite (bare_word_num _ r Hi), V'. reflexivity. }
  split.
  { intros b. rewrite (patch_task_healthy _ _ _ _ F'). cbv zeta.
    rewrite (bare_word_num _ r Hi), V'. reflexivity. }
  intros q. rewrite get_tasks_response. constructor.
Qed.

Lemma delete_task_removes_witness :
  fst (delete_task (mkUser 7) "2" sample_world) =
    mkResponse 200 (MessageBody "Task deleted successfully")
  /\ fst (delete_task (mkUser 7) "2"
            (snd (delete_task (mkUser 7) "2" sample_world))) =
       mkResponse 404
         (ErrorBody 404 "Not Found"
            "Task not found or you do not have permission").
Proof.
  destruct (delete_task_removes (mkUser 7) "2" sample_world
              (mkTask 2 (JStr "a") JNull (JStr "completed") 7
                 "2026-01-02 00:00:00" "2026-01-02 00:00:00")
              eq_refl (or_intror (or_introl eq_refl)) eq_refl eq_refl)
    as [H1 [_ [_ [_ [H2 _]]]]].
  split; [exact H1|exact H2].
Defined.

(** ** Creating, then addressing the task *)

Lemma post_accepts_checks (b : task_body) :
  post_accepts b = true ->
  negb (truthy (b_title b)) || lt_1 (length_of (b_title b)) = false
  /\ truthy (b_status b) && negb (includes statuses (b_status b)) = false.
Proof.
  unfold post_accepts. intros H. apply andb_prop in H as [H1 H2].
  apply negb_true_iff in H1, H2. auto.
Qed.

(** X8: the identifier POST answers with addresses the task it created.  With
    a store that answers, a POST whose body passes the validations is
    answered 201 with the identifier the store assigned; under that
    identifier, a DELETE by the creator then finds the task and is answered
    200, a DELETE by any other user is answered 404; and when no row had
    that identifier before, creating and then deleting leaves the table as
    it was. *)
Theorem post_then_delete (u other : user) (b : task_body) (taskId : string)
  (w : world) :
  faults w = [] -> post_accepts b = true -> next_id w <> 0 ->
  task_id taskId = JNum (next_id w) ->
  fst (post_tasks u b w) =
    mkResponse 201
      (CreatedBody true "Task created successfully" (Some (next_id w))
         (b_title b) (js_or (b_description b) JNull)
         (js_or (b_status b) (JStr "pending")))
  /\ fst (delete_task u taskId (snd (post_tasks u b w))) =
       mkResponse 200 (MessageBody "Task deleted successfully")
  /\ ((forall r, In r (table w) -> id r = next_id w ->
                 user_id r <> uid other) ->
      uid other <> uid u ->
      fst (delete_task other taskId (snd (post_tasks u b w))) =
        mkResponse 404
          (ErrorBody 404 "Not Found"
             "Task not found or you do not have permission"))
  /\ ((forall r, In r (table w) -> id r <> next_id w) ->
      table (snd (delete_task u taskId (snd (post_tasks u b w)))) = table w).
Proof.
  intros F Ha Hn Hi.
  destruct (post_accepts_checks b Ha) as [H1 H2].
  pose proof (post_tasks_healthy u b w F) as E. rewrite H1, H2 in E.
  apply Z.eqb_neq in Hn. rewrite Hn in E.
  assert (F' : faults (snd (post_tasks u b w)) = []).
  { rewrite E. destruct w. cbn in F |- *. exact F. }
  assert (T : table (snd (post_tasks u b w)) =
              (table w ++ [inserted u b (now_text w) (next_id w)])%list).
  { rewrite E. reflexivity. }
  set (row := inserted u b (now_text w) (next_id w)) in *.
  assert (Hrow : In row (table (snd (post_tasks u b w)))).
  { rewrite T. apply in_or_app. right. now left. }
  split; [rewrite E; reflexivity|]. split; [|split].
  - destruct (visible_cons u (task_id taskId) _ row Hrow Hi eq_refl)
      as [r0 [rs V]].
    rewrite (delete_task_healthy _ _ _ F'). cbv zeta.
    rewrite Hi at 1. cbn [Store.bare_word]. rewrite V. reflexivity.
  - intros Hfree Hne.
    rewrite (delete_task_healthy _ _ _ F'). cbv zeta.
    rewrite Hi at 1. cbn [Store.bare_word].
    rewrite visible_nil; [reflexivity|].
    intros r Hr Hir. rewrite T in Hr. apply in_app_or in Hr as [Hr|[<-|[]]].
    + apply Hfree; [exact Hr|]. congruence.
    + exact (not_eq_sym Hne).
  - intros Hfresh.
    destruct (visible_cons u (task_id taskId) _ row Hrow Hi eq_refl)
      as [r0 [rs V]].
    rewrite (delete_task_healthy _ _ _ F'). cbv zeta.
    rewrite Hi at 1. cbn [Store.bare_word]. rewrite V.
    cbn [snd set_db table fst]. rewrite T, filter_app. cbn [filter].
    rewrite (proj2 (has_id_iff (task_id taskId) row) Hi). cbn [negb].
    rewrite app_nil_r.
    apply forallb_filter_id. apply forallb_forall. intros r Hr.
    apply negb_true_iff. destruct (Store.has_id (task_id taskId) r) eqn:Eh;
      [|reflexivity].
    apply has_id_iff in Eh. exfalso. apply (Hfresh r Hr). congruence.
Qed.

Lemma post_then_delete_witness :
  fst (delete_task (mkUser 7) "4"
         (snd (post_tasks (mkUser 7) (mkBody (JStr "X") JUndefined JUndefined)
                 sample_world))) =
    mkResponse 200 (MessageBody "Task deleted successfully")
  /\ fst (delete_task (mkUser 8) "4"
            (snd (post_tasks (mkUser 7)
                    (mkBody (JStr "X") JUndefined JUndefined) sample_world))) =
       mkResponse 404
         (ErrorBody 404 "Not Found"
            "Task not found or you do not have permission")
  /\ table (snd (delete_task (mkUser 7) "4"
                   (snd (post_tasks (mkUser 7)
                           (mkBody (JStr "X") JUndefined JUndefined)
                           sample_world)))) = table sample_world.
Proof.
  assert (Hfresh : forall r, In r (table sample_world) ->
                             id r <> next_id sample_world).
  { intros r [<-|[<-|[<-|[]]]]; discriminate. }
  destruct (post_then_delete (mkUser 7) (mkUser 8)
              (mkBody (JStr "X") JUndefined JUndefined) "4" sample_world
              eq_refl eq_refl ltac:(discriminate) eq_refl)
    as [_ [H1 [H2 H3]]].
  split; [exact H1|]. split; [|exact (H3 Hfresh)].
  apply H2; [|discriminate].
  intros r Hr He. exfalso. exact (Hfresh r Hr He).
Defined.

(** ** The answer to a listing request *)



(** ** The shape of the responses *)

Lemma get_tasks_shape (u : user) (q : query_string) (w : world) :
  error_shaped (fst (get_tasks u q w))
  || success_shaped (fst (get_tasks u q w)) = true.
Proof. rewrite get_tasks_response. reflexivity. Qed.

Lemma post_tasks_shape (u : user) (b : task_body) (w : world) :
  error_shaped (fst (post_tasks u b w))
  || success_shaped (fst (post_tasks u b w)) = true.
Proof.
  unfold post_tasks.
  destruct (negb (truthy (b_title b)) || lt_1 (length_of (b_title b)));
    [reflexivity|].
  destruct (truthy (b_status b) && negb (includes statuses (b_status b)));
    [reflexivity|].
  destruct w as [tb nx h fs lg ck].
  destruct fs as [|[] [|[] fs]]; run_handler; try reflexivity;
    change "INSERT INTO tasks (title, description, status, user_id, created_at, updated_at) VALUES (?, ?, ?, ?, ?, ?)"
      with (Store.render Store.InsertTask);
    rewrite exec_render; cbn [Store.run]; world_simpl; reflexivity.
Qed.

Lemma patch_task_shape (u : user) (tid : string) (b : task_body)
  (w : world) :
  error_shaped (fst (patch_task u tid b w))
  || success_shaped (fst (patch_task u tid b w)) = true.
Proof.
  destruct w as [tb nx h fs lg ck].
  rewrite patch_task_unfold. unfold patch_tail, index_0_of_first.
  generalize (task_id tid). intros i.
  destruct (Store.bare_word i) eqn:En;
    destruct fs as [|[] [|[] [|[] [|[] fs]]]]; run_with En;
    try reflexivity;
    (destruct (filter _ tb) as [|r rs] eqn:Ev; cbn [no_rows]; world_simpl;
     [reflexivity|]);
    (destruct (defined (b_title b) && negb (has_properties (b_title b)));
     [reflexivity|]);
    (destruct (defined (b_title b) && lt_1 (length_of (b_title b)));
     [reflexivity|]);
    (destruct (defined (b_status b) && negb (includes statuses (b_status b)));
     [reflexivity|]);
    (destruct (defined (b_title b) || defined (b_description b)
               || defined (b_status b)); cbn [negb];
     [|reflexivity]);
    run_with En; try reflexivity;
    destruct (no_rows _); reflexivity.
Qed.

Lemma delete_task_shape (u : user) (tid : string) (w : world) :
  error_shaped (fst (delete_task u tid w))
  || success_shaped (fst (delete_task u tid w)) = true.
Proof.
  destruct w as [tb nx h fs lg ck].
  unfold delete_task. fold (task_id tid). fold select_owned.
  fold delete_by_id.
  generalize (task_id tid). intros i.
  destruct (Store.bare_word i) eqn:En;
    destruct fs as [|[] [|[] [|[] fs]]]; run_with En;
    try reflexivity;
    (destruct (filter _ tb) as [|r rs] eqn:Ev; cbn [no_rows]; world_simpl;
     [reflexivity|]);
    run_with En; reflexivity.
Qed.

(** X10: every response of the four task routes has one of two shapes,
    whatever the header, the parameters, the body and the fault plan: a
    success, with status 200 (201 for a creation) and a body that is not an
    error; or an error [{code, error, message}] whose code is the status of
    the response and whose label is the one of that status: 400 "Bad
    Request", 401 "Unauthorized", 403 "Forbidden", 404 "Not Found" or 500
    "Internal Server Error". *)
Theorem task_routes_response_shape
  (jwt_verify : string -> string -> option user) (JWT_SECRET : string)
  (authHeader : option string) (q : query_string) (b : task_body)
  (taskId : string) (w : world) :
  (forall r,
      In r [fst (route jwt_verify JWT_SECRET (fun u => get_tasks u q)
                   authHeader w);
            fst (route jwt_verify JWT_SECRET (fun u => post_tasks u b)
                   authHeader w);
            fst (route jwt_verify JWT_SECRET
                   (fun u => patch_task u taskId b) authHeader w);
            fst (route jwt_verify JWT_SECRET (fun u => delete_task u taskId)
                   authHeader w)] ->
      error_shaped r || success_shaped r = true).
Proof.
  intros r Hr. unfold route in Hr.
  destruct (authenticateToken jwt_verify JWT_SECRET authHeader) as [rej|u]
    eqn:E.
  - assert (Hrej : rej = unauthorized \/ rej = forbidden).
    { unfold authenticateToken in E.
      destruct (bearer_token authHeader) as [t|]; [|left; congruence].
      destruct (negb (truthy (JStr t))); [left; congruence|].
      destruct (jwt_verify t JWT_SECRET); [discriminate|right; congruence]. }
    cbn [fst In] in Hr.
    destruct Hr as [<-|[<-|[<-|[<-|[]]]]]; destruct Hrej as [-> | ->];
      reflexivity.
  - destruct Hr as [<-|[<-|[<-|[<-|[]]]]].
    + apply get_tasks_shape.
    + apply post_tasks_shape.
    + apply patch_task_shape.
    + apply delete_task_shape.
Qed.

Lemma task_routes_response_shape_witness :
  error_shaped
    (fst (route sample_verify "s" (fun u => delete_task u "3")
            (Some "Bearer good") sample_world))
  || success_shaped
       (fst (route sample_verify "s" (fun u => delete_task u "3")
               (Some "Bearer good") sample_world)) = true.
Proof.
  apply (task_routes_response_shape sample_verify "s" (Some "Bearer good")
           (mkQuery None None None None)
           (mkBody JUndefined JUndefined JUndefined) "3" sample_world).
  right. right. right. left. reflexivity.
Defined.

(** * Further properties of [src/server.js] *)

(** X11: the startup probe of the database gives back the connection on every
    path.  Whatever the fault plan (the acquisition, the first or the second
    table check may raise), the probe ends with the connections held before
    it, leaves the table as it was, sends at most its two table checks, and
    writes "Database tables verified" to the console exactly when none of the
    three operations raised. *)
Theorem database_probe_releases (w : world) :
  held (snd (database_probe w)) = held w
  /\ table (snd (database_probe w)) = table w
  /\ next_id (snd (database_probe w)) = next_id w
  /\ existsb (String.eqb "Database tables verified") (fst (database_probe w))
     = negb (faulted 3 w)
  /\ (exists k,
        log (snd (database_probe w)) =
        (log w ++ firstn k [("SELECT 1 FROM users LIMIT 1", []);
                            ("SELECT 1 FROM tasks LIMIT 1", [])])%list).
Proof.
  destruct w as [tb nx h fs lg ck].
  unfold database_probe, check_tables, catch, probe_query, faulted.
  destruct fs as [|[] [|[] [|[] fs]]]; run_handler;
    (repeat split;
     first [ exists 0%nat; cbn [firstn]; now rewrite app_nil_r
           | exists 1%nat; reflexivity
           | exists 2%nat; cbn [firstn]; now rewrite <- app_assoc ]).
Qed.

Example database_probe_examples :
  fst (database_probe sample_world) =
    ["Attempting to connect to database with config:";
     "Database connection established successfully";
     "Database tables verified"]
  /\ fst (database_probe (faulty_world [false; false; true])) =
       ["Attempting to connect to database with config:";
        "Database connection established successfully";
        "Database tables not found. Please run database.sql:"]
  /\ fst (database_probe (faulty_world [true])) =
       ["Attempting to connect to database with config:";
        "Database connection failed:"; "Error details:"]
  /\ held (snd (database_probe (faulty_world [false; true]))) = 0%nat.
Proof. repeat split. Qed.

Lemma jsval_eqb_str (v : jsval) (s : string) :
  jsval_eqb v (JStr s) = true -> v = JStr s.
Proof.
  destruct v; simpl; try discriminate. intros H.
  apply String.eqb_eq in H. now subst.
Qed.

Lemma env_or_fallback (value : option string) (fallback s : string) :
  fallback <> s -> value <> Some s -> env_or value fallback <> s.
Proof.
  unfold env_or. intros Hf Hv. destruct value as [x|]; [|exact Hf].
  destruct (truthy (JStr x)); [|exact Hf]. congruence.
Qed.

(** X12: what [loadOpenAPISpec] does to a loaded document.  The keys other
    than [servers] are kept; a [servers] value that is not an array leaves
    the document as it was, and so does an array in which no url is the
    placeholder [${API_URL}]; in an array the entries keep their number, their
    order and their other keys; applying the function twice is applying it
    once; and, as soon as the API_URL environment variable is not itself the
    placeholder text, no server of the result has the placeholder as url. *)
Theorem loadOpenAPISpec_servers {server_keys spec_keys : Type}
  (api_url : string) (spec : openapi server_keys spec_keys) :
  spec_rest (loadOpenAPISpec api_url spec) = spec_rest spec
  /\ (forall v, servers spec = ServersOther v ->
                loadOpenAPISpec api_url spec = spec)
  /\ (forall l,
        servers spec = ServersArray l ->
        exists l',
          servers (loadOpenAPISpec api_url spec) = ServersArray l'
          /\ map server_rest l' = map server_rest l
          /\ (Forall (fun sv => url sv <> JStr placeholder) l -> l' = l))
  /\ loadOpenAPISpec api_url (loadOpenAPISpec api_url spec) =
     loadOpenAPISpec api_url spec
  /\ (forall env l',
        env <> Some placeholder ->
        servers (loadOpenAPISpec (API_URL env) spec) = ServersArray l' ->
        Forall (fun sv => url sv <> JStr placeholder) l').
Proof.
  destruct spec as [[l|v] rest]; unfold loadOpenAPISpec; cbn [servers spec_rest].
  - split; [reflexivity|]. split; [discriminate|]. split; [|split].
    + intros l0 [= <-]. eexists. split; [reflexivity|]. split.
      * rewrite map_map. apply map_ext. intros sv.
        destruct (jsval_eqb (url sv) (JStr placeholder)); reflexivity.
      * intros H. induction H as [|sv l Hsv Hl IH]; [reflexivity|].
        simpl. rewrite IH. destruct (jsval_eqb (url sv) (JStr placeholder))
          eqn:E; [|reflexivity].
        apply jsval_eqb_str in E. contradiction.
    + f_equal. f_equal. rewrite map_map. apply map_ext. intros sv.
      destruct (jsval_eqb (url sv) (JStr placeholder)) eqn:E.
      * cbn [url server_rest].
        destruct (jsval_eqb (JStr api_url) (JStr placeholder)); reflexivity.
      * rewrite E. reflexivity.
    + intros env l' He [= <-]. apply Forall_map, Forall_forall.
      intros sv _. destruct (jsval_eqb (url sv) (JStr placeholder)) eqn:E.
      * cbn [url]. intros [= H]. revert H. unfold API_URL.
        apply env_or_fallback; [discriminate|exact He].
      * intros H. rewrite H in E. simpl in E. discriminate.
  - split; [reflexivity|]. split; [reflexivity|]. split; [discriminate|].
    split; [reflexivity|]. discriminate.
Qed.

Lemma loadOpenAPISpec_servers_witness :
  loadOpenAPISpec "http://localhost:5001"
    (mkOpenapi (ServersOther JUndefined : servers_field string) "title") =
    mkOpenapi (ServersOther JUndefined) "title"
  /\ Forall (fun sv : server string => url sv <> JStr placeholder)
       [mkServer (JStr "https://api.example.com") "production";
        mkServer (JStr "http://localhost:5001") "local"].
Proof.
  split.
  - exact (proj1 (proj2 (loadOpenAPISpec_servers (spec_keys := string)
                           (server_keys := string) "http://localhost:5001"
                           (mkOpenapi (ServersOther JUndefined) "title")))
             JUndefined eq_refl).
  - exact (proj2 (proj2 (proj2 (proj2
             (loadOpenAPISpec_servers (API_URL None)
                (mkOpenapi
                   (ServersArray
                      [mkServer (JStr "https://api.example.com") "production";
                       mkServer (JStr placeholder) "local"]) "title")))))
             None _ ltac:(discriminate) eq_refl).
Defined.




(** * Further properties of the listing queries *)

(** X14: the status filter of the two queries.  With a status parameter
    that is one of pending, in_progress and completed, the row query and the
    count query filter alike: both carry [AND status = ?] right after the
    restriction to the requester, and both bind the requester's id first and
    the status second.  With no status parameter, or an empty one, neither
    query carries the filter. *)
Theorem get_tasks_status_filter (u : user) (q : query_string) :
  (forall s,
      q_status q = Some s -> includes statuses (JStr s) = true ->
      (exists rest,
          fst (list_query u q) =
          "SELECT * FROM tasks WHERE user_id = ? AND status = ?" ++ rest
          /\ (rest = " LIMIT ? OFFSET ?"
              \/ String.prefix " ORDER BY " rest = true))
      /\ snd (list_query u q) =
           [JNum (uid u); JStr s; num_param (parseInt_or (q_limit q) 10);
            num_param
              (number_mul (number_sub (parseInt_or (q_page q) 1) (Num 1))
                 (parseInt_or (q_limit q) 10))]
      /\ count_query u q =
           ("SELECT COUNT(*) as total FROM tasks WHERE user_id = ? AND status = ?",
            [JNum (uid u); JStr s]))
  /\ (q_status q = None \/ q_status q = Some "" ->
      (exists rest,
          fst (list_query u q) =
          "SELECT * FROM tasks WHERE user_id = ?" ++ rest
          /\ (rest = " LIMIT ? OFFSET ?"
              \/ String.prefix " ORDER BY " rest = true))
      /\ snd (list_query u q) =
           [JNum (uid u); num_param (parseInt_or (q_limit q) 10);
            num_param
              (number_mul (number_sub (parseInt_or (q_page q) 1) (Num 1))
                 (parseInt_or (q_limit q) 10))]
      /\ count_query u q =
           ("SELECT COUNT(*) as total FROM tasks WHERE user_id = ?",
            [JNum (uid u)])).
Proof.
  split.
  - intros s Hs Hi.
    assert (Ht : truthy (JStr s) = true).
    { destruct s; [discriminate Hi|reflexivity]. }
    assert (Hf : status_filter q = true).
    { unfold status_filter. rewrite Hs. cbn [of_param]. now rewrite Ht, Hi. }
    split; [|split].
    + rewrite list_query_text, Hf.
      destruct (sort_order q) as [[c d]|]; eexists; (split; [reflexivity|]);
        [right; destruct c, d; reflexivity|left; reflexivity].
    + rewrite list_query_params, Hf, Hs. reflexivity.
    + unfold count_query. rewrite Hs. cbn [of_param]. rewrite Ht.
      reflexivity.
  - intros H.
    assert (Hf : status_filter q = false)
      by (unfold status_filter; destruct H as [-> | ->]; reflexivity).
    split; [|split].
    + rewrite list_query_text, Hf.
      destruct (sort_order q) as [[c d]|]; eexists; (split; [reflexivity|]);
        [right; destruct c, d; reflexivity|left; reflexivity].
    + rewrite list_query_params, Hf. reflexivity.
    + unfold count_query. destruct H as [-> | ->]; reflexivity.
Qed.

Lemma get_tasks_status_filter_witness :
  count_query (mkUser 7) (mkQuery None None (Some "pending") None) =
    ("SELECT COUNT(*) as total FROM tasks WHERE user_id = ? AND status = ?",
     [JNum 7; JStr "pending"])
  /\ snd (list_query (mkUser 7) (mkQuery None None (Some "pending") None)) =
       [JNum 7; JStr "pending"; JNum 10; JNum 0]
  /\ count_query (mkUser 7) (mkQuery None None (Some "") None) =
       ("SELECT COUNT(*) as total FROM tasks WHERE user_id = ?", [JNum 7]).
Proof.
  destruct (proj1 (get_tasks_status_filter (mkUser 7)
                     (mkQuery None None (Some "pending") None))
              "pending" eq_refl eq_refl) as [_ [H1 H2]].
  split; [exact H2|]. split; [exact H1|].
  exact (proj2 (proj2 (proj2 (get_tasks_status_filter (mkUser 7)
                                (mkQuery None None (Some "") None))
                         (or_intror eq_refl)))).
Defined.
